(** * Smart email summariser: extraction, summarisation with retry, output

    A shallow embedding of [smart_email_summarizer.py].

    Python [str] values are lists of code points, [bytes] values lists of
    bytes.  Code with effects (the summarisation libraries, logging, the
    console, the output file, the IMAP session) runs in a state-and-exception
    monad over a [World] that records every observable action in order. *)

From Stdlib Require Import String Ascii NArith List Bool Lia.
From Stdlib Require Import Strings.Byte.
From stdpp Require Import base option list gmap.

(** ** Python strings *)

Module Py.

Definition str := list N.
Definition bytes := list byte.

(** A source literal, character by character. *)
Definition lit (s : string) : str := map N_of_ascii (list_ascii_of_string s).

Definition nl : str := [10%N].

(** [str.isspace] on one code point: the code points CPython's
    [Py_UNICODE_ISSPACE] accepts. *)
Definition isspace (c : N) : bool :=
  ((0x09 <=? c) && (c <=? 0x0D) || (0x1C <=? c) && (c <=? 0x20)
   || (c =? 0x85) || (c =? 0xA0) || (c =? 0x1680)
   || (0x2000 <=? c) && (c <=? 0x200A)
   || (c =? 0x2028) || (c =? 0x2029) || (c =? 0x202F) || (c =? 0x205F)
   || (c =? 0x3000))%N.

Fixpoint lstrip (s : str) : str :=
  match s with
  | c :: rest => if isspace c then lstrip rest else s
  | [] => []
  end.

Definition rstrip (s : str) : str := rev (lstrip (rev s)).

(** [s.strip()] *)
Definition strip (s : str) : str := rstrip (lstrip s).

(** [s.startswith(prefix)] *)
Fixpoint startswith (prefix s : str) : bool :=
  match prefix, s with
  | [], _ => true
  | p :: prefix', c :: s' => (p =? c)%N && startswith prefix' s'
  | _ :: _, [] => false
  end.

(** [needle in s] *)
Fixpoint contains (needle s : str) : bool :=
  startswith needle s ||
  match s with
  | [] => false
  | _ :: s' => contains needle s'
  end.

(** Truthiness of a [str]: non-empty. *)
Definition truthy (s : str) : bool :=
  match s with [] => false | _ :: _ => true end.

(** Truthiness of an [Optional[str]]: neither [None] nor empty. *)
Definition truthy_opt (o : option str) : bool :=
  match o with Some s => truthy s | None => false end.

(** [o or default] for an [Optional[str]]. *)
Definition or_else (o : option str) (default : str) : str :=
  match o with
  | Some s => if truthy s then s else default
  | None => default
  end.

(** [str(o)] for an [Optional[str]]: [None] prints as the word None. *)
Definition str_of_opt (o : option str) : str :=
  match o with Some s => s | None => lit "None" end.

End Py.

Import Py.

(** ** Exceptions and results *)

(** The exceptions of class [Exception] the program meets.  [Exception_]
    carries the text [str(e)] of a library exception. *)
Inductive exn :=
| LookupError
| AttributeError
| IndexError
| HeaderParseError
| Exception_ (msg : str).

Inductive result (A : Type) :=
| Ok (a : A)
| Raise (e : exn).
Arguments Ok {A} a.
Arguments Raise {A} e.

Definition exn_str (e : exn) : str :=
  match e with
  | LookupError => lit "unknown encoding"
  | AttributeError => lit "'NoneType' object has no attribute 'decode'"
  | IndexError => lit "list index out of range"
  | HeaderParseError => lit "Base64 decoding error"
  | Exception_ msg => msg
  end.

Definition rbind {A B} (r : result A) (k : A -> result B) : result B :=
  match r with
  | Ok a => k a
  | Raise e => Raise e
  end.

(** ** The world *)

Inductive backend_kind := OpenAI | Transformer.

Inductive level := INFO | WARNING | ERROR.

(** Everything the program does that can be observed from outside, plus
    one ghost event, [EvSummarize], that marks an entry into
    [summarize_text].  [EvPrint] is a text that reached the console,
    [EvAppend] a text written to a file, [EvStore] a STORE command sent
    to the mail server. *)
Inductive event :=
| EvSummarize (text method : str) (openai_api_key : option str)
| EvBackend (k : backend_kind) (text : str)
| EvLog (l : level) (msg : str)
| EvPrint (s : str)
| EvAppend (path data : str)
| EvStore (email_id : bytes) (command flags : str).

Record World := mkWorld {
  trace : list event;              (* oldest first *)
  fs : gmap str str;               (* text files: path to content *)
  openai_api_key_attr : option str (* the module attribute openai.api_key *)
}.

Definition emit (e : event) (w : World) : World :=
  mkWorld (trace w ++ [e]) (fs w) (openai_api_key_attr w).

Definition is_backend (e : event) : bool :=
  match e with EvBackend _ _ => true | _ => false end.

Definition is_summarize (e : event) : bool :=
  match e with EvSummarize _ _ _ => true | _ => false end.

Definition is_store (e : event) : bool :=
  match e with EvStore _ _ _ => true | _ => false end.

(** Number of calls made so far into a summarisation library. *)
Definition backend_calls (w : World) : nat :=
  length (filter (fun e => is_backend e = true) (trace w)).

(** Number of invocations of the adapter [summarize_text] so far. *)
Definition adapter_calls (w : World) : nat :=
  length (filter (fun e => is_summarize e = true) (trace w)).

(** ** The monad of effectful code *)

Definition M (A : Type) : Type := World -> result A * World.

Definition ret {A} (a : A) : M A := fun w => (Ok a, w).

Definition bind {A B} (m : M A) (k : A -> M B) : M B :=
  fun w =>
    match m w with
    | (Ok a, w') => k a w'
    | (Raise e, w') => (Raise e, w')
    end.

Definition lift {A} (r : result A) : M A := fun w => (r, w).

Definition tell (e : event) : M unit := fun w => (Ok tt, emit e w).

(** [try: body except Exception as e: handler(e)] *)
Definition try_except {A} (body : M A) (handler : exn -> M A) : M A :=
  fun w =>
    match body w with
    | (Ok a, w') => (Ok a, w')
    | (Raise e, w') => handler e w'
    end.

Declare Scope py_scope.
Delimit Scope py_scope with py.
Notation "x <- m ;; k" := (bind m (fun x => k))
  (at level 100, m at next level, k at level 200, right associativity)
  : py_scope.
Notation "m ;; k" := (bind m (fun _ => k))
  (at level 100, k at level 200, right associativity) : py_scope.
Open Scope py_scope.

Definition logging (l : level) (msg : str) : M unit := tell (EvLog l msg).

(** ** The summarisation libraries *)

(** What one call into a library does: return a text, or raise an
    exception of class [Exception] whose text is [e]. *)
Inductive outcome :=
| Returned (s : str)
| Raised (e : str).

(** The behaviour of the libraries: the outcome of the call to backend
    [k] on [text], given how many library calls were made before it. *)
Definition Backend := backend_kind -> nat -> str -> outcome.

Section Summarize.

Variable backend : Backend.

Definition call_backend (k : backend_kind) (text : str) : M str :=
  fun w =>
    let w' := emit (EvBackend k text) w in
    match backend k (backend_calls w) text with
    | Returned s => (Ok s, w')
    | Raised e => (Raise (Exception_ e), w')
    end.

Definition set_openai_api_key (key : option str) : M unit :=
  fun w => (Ok tt, mkWorld (trace w) (fs w) key).

Definition api_error : str := lit "[Summary unavailable due to API error]".
Definition summarization_error : str :=
  lit "[Summary unavailable due to summarization error]".
Definition no_method : str := lit "[No summarization method available]".

(** [openai.ChatCompletion.create(...)] followed by
    [response.choices[0].message["content"]]: the reply text, or the
    exception either step raises. *)
Definition ChatCompletion_create (text : str) : M str :=
  call_backend OpenAI text.

(** [pipeline("summarization", ...)] followed by [summarizer(text, ...)]
    and [summary[0]["summary_text"]]: the summary text, or the exception
    any of the steps raises. *)
Definition summarizer (text : str) : M str :=
  call_backend Transformer text.

(** The adapter.  Its first step is the ghost event of its own
    invocation; the rest follows the source line by line. *)
Definition summarize_text (text method : str) (openai_api_key : option str)
  : M str :=
  tell (EvSummarize text method openai_api_key) ;;
  if bool_decide (method = lit "openai") && truthy_opt openai_api_key then
    set_openai_api_key openai_api_key ;;
    try_except
      (content <- ChatCompletion_create text ;;
       ret (strip content))
      (fun e =>
         logging ERROR (lit "OpenAI API error: " ++ exn_str e) ;;
         ret api_error)
  else if bool_decide (method = lit "transformer") then
    try_except
      (summarizer text)
      (fun e =>
         logging ERROR (lit "Transformer summarization error: " ++ exn_str e) ;;
         ret summarization_error)
  else
    ret no_method.

Definition unavailable_prefix : str := lit "[Summary unavailable".

Definition try_summarize_text (text method : str)
  (openai_api_key : option str) : M str :=
  summary <- summarize_text text method openai_api_key ;;
  if startswith unavailable_prefix summary then
    logging INFO (lit "First summarization attempt failed, retrying...") ;;
    summarize_text text method openai_api_key
  else
    ret summary.

End Summarize.

(** ** Parsed messages *)

(** One element of the list [decode_header] returns: text that needed no
    decoding, or the raw bytes of an encoded word. *)
Inductive word_value :=
| WStr (s : str)
| WBytes (b : bytes).

Definition header_words := list (word_value * option str).

(** What the program reads from the headers of a message or of one of
    its parts. *)
Record headers := mkHeaders {
  From_ : option str;               (* msg.get("From") *)
  Subject_words : result header_words;
                                    (* decode_header(msg.get("Subject", "")),
                                       or the error it raises *)
  content_type : str;               (* get_content_type() *)
  Content_Disposition : option str; (* part.get("Content-Disposition") *)
  content_charset : option str      (* get_content_charset() *)
}.

(** The object [email.message_from_bytes] builds: a leaf with its payload
    after transfer decoding, or a container of sub-parts. *)
#[warnings="-register-all"]
Inductive message :=
| Single (h : headers) (payload : bytes)
| Multipart (h : headers) (parts : list message).

Definition hdr (m : message) : headers :=
  match m with Single h _ | Multipart h _ => h end.

Definition is_multipart (m : message) : bool :=
  match m with Single _ _ => false | Multipart _ _ => true end.

Definition get_content_type (m : message) : str := content_type (hdr m).

Definition get_content_charset (m : message) : option str :=
  content_charset (hdr m).

(** [get_payload(decode=True)]: [None] on a container. *)
Definition get_payload_decode (m : message) : option bytes :=
  match m with Single _ b => Some b | Multipart _ _ => None end.

(** [msg.walk()]: the message, then its sub-parts depth first, in
    document order. *)
Fixpoint walk (m : message) : list message :=
  m :: match m with
       | Single _ _ => []
       | Multipart _ parts => flat_map walk parts
       end.

Notation "x <~ r ;; k" := (rbind r (fun x => k))
  (at level 100, r at next level, k at level 200, right associativity)
  : py_scope.

Section Extract.

(** [b.decode(encoding, errors="ignore")]: the text, or the error the
    codec machinery raises (a [LookupError] for an unknown encoding). *)
Variable decode : str -> bytes -> result str.

(** [part.get_payload(decode=True).decode(charset, errors="ignore")] with
    [charset = part.get_content_charset() or "utf-8"]. *)
Definition decode_payload (part : message) : result str :=
  let charset := or_else (get_content_charset part) (lit "utf-8") in
  match get_payload_decode part with
  | Some b => decode charset b
  | None => Raise AttributeError
  end.

Definition is_text_plain (part : message) : bool :=
  bool_decide (get_content_type part = lit "text/plain").

Definition is_text_html (part : message) : bool :=
  bool_decide (get_content_type part = lit "text/html").

(** ["attachment" in str(part.get("Content-Disposition"))] *)
Definition mentions_attachment (part : message) : bool :=
  contains (lit "attachment") (str_of_opt (Content_Disposition (hdr part))).

(** The first loop over [msg.walk()]: [Some] when it leaves by [break],
    [None] when it runs to its end. *)
Fixpoint plain_loop (parts : list message) : option (result str) :=
  match parts with
  | [] => None
  | part :: rest =>
      if is_text_plain part && negb (mentions_attachment part)
      then Some (decode_payload part)
      else plain_loop rest
  end.

(** The fallback loop over [msg.walk()]. *)
Fixpoint html_loop (parts : list message) : option (result str) :=
  match parts with
  | [] => None
  | part :: rest =>
      if is_text_html part
      then Some (decode_payload part)
      else html_loop rest
  end.

(** Lines 55 to 57: the first element of the decoded header, turned into
    text. *)
Definition extract_subject (msg : message) : result str :=
  words <~ Subject_words (hdr msg) ;;
  match words with
  | [] => Raise IndexError
  | (subject, encoding) :: _ =>
      match subject with
      | WBytes b => decode (or_else encoding (lit "utf-8")) b
      | WStr s => Ok s
      end
  end.

(** Lines 58 to 83. *)
Definition extract_body (msg : message) : result str :=
  if is_multipart msg then
    match plain_loop (walk msg) with
    | Some body => body
    | None =>
        match html_loop (walk msg) with
        | Some body => body
        | None => Ok []
        end
    end
  else
    if is_text_plain msg then decode_payload msg
    else if is_text_html msg then decode_payload msg
    else Ok [].

(** The function from line 54 on: [msg] is the object that line 53,
    [email.message_from_bytes(raw_email)], builds. *)
Definition extract_email_content (msg : message)
  : result (str * str * str) :=
  let sender := default [] (From_ (hdr msg)) in
  subject <~ extract_subject msg ;;
  body <~ extract_body msg ;;
  Ok (sender, subject, body).

End Extract.

(** ** The console and the files *)

(** What the machine the program runs on answers, given all that has
    happened so far: the outcome of writing a text to the standard
    output, of opening the file at a path for appending, and of writing a
    text to the file opened at a path.  Each returns, or raises (a text
    the stream cannot encode, a path that cannot be opened, a disk that
    has filled up, and the like). *)
Record Host := mkHost {
  stdout_write : World -> str -> result unit;
  open_append : World -> str -> result unit;
  file_write : World -> str -> str -> result unit
}.

(** The outcome of a call whose answer may depend on the world. *)
Definition ask {A} (f : World -> result A) : M A := fun w => (f w, w).

(** ** The IMAP session *)

Module Imap.

#[global] Instance byte_eq_decision : EqDecision byte := Byte.byte_eq_dec.

(** [b.split()] on a [bytes] value splits at runs of ASCII whitespace. *)
Definition is_ascii_space (b : byte) : bool :=
  let c := Byte.to_N b in ((0x09 <=? c) && (c <=? 0x0D) || (c =? 0x20))%N.

(** [tok] is the word being read, in order. *)
Fixpoint split_from (tok s : bytes) : list bytes :=
  match s with
  | [] => match tok with [] => [] | _ :: _ => [tok] end
  | b :: rest =>
      if is_ascii_space b then
        match tok with
        | [] => split_from [] rest
        | _ :: _ => tok :: split_from [] rest
        end
      else split_from (tok ++ [b]) rest
  end.

Definition bytes_split (s : bytes) : list bytes := split_from [] s.

(** [l[-n:]] for a list [l] and an integer [n]: the slice starts at
    [-n], counted from the end when negative and clipped to the list. *)
Definition slice_from_minus {A} (n : Z) (l : list A) : list A :=
  let len := Z.of_nat (length l) in
  let start := (- n)%Z in
  let start :=
    if (start <? 0)%Z then Z.max (start + len) 0 else Z.min start len in
  skipn (Z.to_nat start) l.

(** The answers of the server to the commands of one call of
    [fetch_emails].  A command returns its status and its data, or raises.
    The data of a SEARCH is the list [messages]; of the data of a FETCH
    the record keeps what [msg_data[0][1]] evaluates to.  [store] is the
    outcome of [mail.store(...)] and [logout] that of [mail.logout()]. *)
Record IMAP4 := mkIMAP4 {
  select : str -> result unit;
  search : str -> result (str * list (option bytes));
  fetch : bytes -> str -> result (str * result bytes);
  store : bytes -> str -> str -> result unit;
  logout : result unit
}.

(** [messages[0].split()] *)
Definition first_split (messages : list (option bytes))
  : result (list bytes) :=
  match messages with
  | [] => Raise IndexError
  | None :: _ => Raise AttributeError
  | Some blob :: _ => Ok (bytes_split blob)
  end.

(** The loop of lines 44 to 47, with the list [fetched] it builds. *)
Fixpoint fetch_loop (mail : IMAP4) (email_ids : list bytes)
  : result (list (bytes * bytes)) :=
  match email_ids with
  | [] => Ok []
  | eid :: rest =>
      response <~ fetch mail eid (lit "(RFC822)") ;;
      let (status, msg_data) := response in
      if bool_decide (status = lit "OK") then
        raw <~ msg_data ;;
        fetched <~ fetch_loop mail rest ;;
        Ok ((eid, raw) :: fetched)
      else fetch_loop mail rest
  end.

Definition fetch_emails (mail : IMAP4) (n : Z) (unread_only : bool)
  : M (list (bytes * bytes)) :=
  lift (select mail (lit "inbox")) ;;
  response <- lift (if unread_only
                    then search mail (lit "UNSEEN")
                    else search mail (lit "ALL")) ;;
  let (status, messages) := response in
  if negb (bool_decide (status = lit "OK")) then
    logging ERROR (lit "Failed to fetch emails.") ;;
    ret []
  else
    email_ids <- lift (first_split messages) ;;
    let email_ids := slice_from_minus n email_ids in
    lift (fetch_loop mail email_ids).

End Imap.

Import Imap.

(** ** The output sink *)

Section Sink.

Variable host : Host.

(** [print(s)]: the text reaches the console, or the call raises and
    nothing does. *)
Definition print (s : str) : M unit :=
  ask (fun w => stdout_write host w s) ;;
  tell (EvPrint s).

(** What [open(path, "a")] does to the files once it has succeeded: the
    file exists from then on, with what it held. *)
Definition create_if_absent (path : str) : M unit :=
  fun w =>
    (Ok tt,
     mkWorld (trace w) (<[path := default [] (fs w !! path)]> (fs w))
       (openai_api_key_attr w)).

(** What a write that has succeeded does: [data] goes after what the
    file holds. *)
Definition write_at_end (path data : str) : M unit :=
  fun w =>
    (Ok tt,
     mkWorld (trace w ++ [EvAppend path data])
       (<[path := default [] (fs w !! path) ++ data]> (fs w))
       (openai_api_key_attr w)).

(** [with open(path, "a", encoding="utf-8") as f: f.write(data)].  When
    [open] raises nothing has happened; when the write raises the file
    has been opened, so it exists, and holds what it held. *)
Definition append_to_file (path data : str) : M unit :=
  ask (fun w => open_append host w path) ;;
  create_if_absent path ;;
  ask (fun w => file_write host w path data) ;;
  write_at_end path data.

Definition output_summary (sender subject summary : str)
  (save_file : option str) : M unit :=
  let output :=
    lit "From: " ++ sender ++ nl ++ lit "Subject: " ++ subject ++ nl
    ++ lit "Summary: " ++ summary ++ nl ++ repeat 45%N 40 in
  print output ;;
  match save_file with
  | Some path =>
      if truthy path then append_to_file path (output ++ nl) else ret tt
  | None => ret tt
  end.

End Sink.

(** ** The loop of [main] over the fetched messages *)

(** The STORE command is on its way once [mail.store] is called; the
    call then returns or raises. *)
Definition mark_as_read (mail : IMAP4) (email_id : bytes) : M unit :=
  tell (EvStore email_id (lit "+FLAGS") (lit "\Seen")) ;;
  lift (store mail email_id (lit "+FLAGS") (lit "\Seen")).

Definition no_body_warning (sender subject : str) : str :=
  lit "Email from " ++ sender ++ lit " with subject '" ++ subject
  ++ lit "' has no body.".

Section Main.

Variable backend : Backend.
Variable decode : str -> bytes -> result str.
Variable host : Host.
Variable mail : IMAP4.

(** The answers given at the prompts of [main]. *)
Variable method : str.
Variable openai_api_key : option str.
Variable mark_read : bool.
Variable save_file : option str.

(** One turn of the loop at lines 175 to 185.  A fetched message is the
    pair of its identifier and its raw text, the raw text standing here
    as the message [email.message_from_bytes] builds from it. *)
Definition main_iteration (email : bytes * message) : M unit :=
  let (eid, raw_email) := email in
  content <- lift (extract_email_content decode raw_email) ;;
  let '(sender, subject, body) := content in
  if negb (truthy (strip body)) then
    logging WARNING (no_body_warning sender subject)
  else
    summary <- try_summarize_text backend body method openai_api_key ;;
    output_summary host sender subject summary save_file ;;
    if mark_read then mark_as_read mail eid else ret tt.

Fixpoint main_loop (emails : list (bytes * message)) : M unit :=
  match emails with
  | [] => ret tt
  | email :: rest => main_iteration email ;; main_loop rest
  end.

End Main.

(** ** The adapter's results, as the data model names them *)

(** A summary, or a tagged failure.  [BackendError] records which backend
    failed and the diagnostic text of the exception. *)
Inductive SummaryResult :=
| Success (summary : str)
| BackendUnavailable
| BackendError (k : backend_kind) (diagnostic : str).

(** The fixed placeholder that stands for each failure, and the summary
    itself for a success. *)
Definition render (r : SummaryResult) : str :=
  match r with
  | Success s => s
  | BackendUnavailable => no_method
  | BackendError OpenAI _ => api_error
  | BackendError Transformer _ => summarization_error
  end.

Definition is_failure (r : SummaryResult) : bool :=
  match r with Success _ => false | _ => true end.

(** The backend the configuration selects, if any. *)
Definition selected (method : str) (openai_api_key : option str)
  : option backend_kind :=
  if bool_decide (method = lit "openai") && truthy_opt openai_api_key
  then Some OpenAI
  else if bool_decide (method = lit "transformer") then Some Transformer
  else None.

(** What the adapter hands back for a reply of backend [k]. *)
Definition success_value (k : backend_kind) (reply : str) : str :=
  match k with OpenAI => strip reply | Transformer => reply end.

(** The tagged result of one attempt made when [n] library calls have
    already happened. *)
Definition tagged_result (backend : Backend) (n : nat)
  (text method : str) (openai_api_key : option str) : SummaryResult :=
  match selected method openai_api_key with
  | None => BackendUnavailable
  | Some k =>
      match backend k n text with
      | Returned s => Success (success_value k s)
      | Raised e => BackendError k e
      end
  end.

Definition error_log (k : backend_kind) (e : str) : event :=
  match k with
  | OpenAI => EvLog ERROR (lit "OpenAI API error: " ++ e)
  | Transformer => EvLog ERROR (lit "Transformer summarization error: " ++ e)
  end.

(** The events of one attempt. *)
Definition attempt_events (backend : Backend) (n : nat)
  (text method : str) (openai_api_key : option str) : list event :=
  EvSummarize text method openai_api_key ::
  match selected method openai_api_key with
  | None => []
  | Some k =>
      EvBackend k text ::
      match backend k n text with
      | Returned _ => []
      | Raised e => [error_log k e]
      end
  end.

(** The world after one attempt. *)
Definition after_attempt (backend : Backend) (text method : str)
  (openai_api_key : option str) (w : World) : World :=
  mkWorld
    (trace w ++ attempt_events backend (backend_calls w) text method
                  openai_api_key)
    (fs w)
    (match selected method openai_api_key with
     | Some OpenAI => openai_api_key
     | _ => openai_api_key_attr w
     end).

Definition retry_log : event :=
  EvLog INFO (lit "First summarization attempt failed, retrying...").

Definition error_placeholder (k : backend_kind) : str :=
  match k with OpenAI => api_error | Transformer => summarization_error end.

(** The retry policy in the words of the specification: after a first
    attempt that fails in either way the adapter is invoked exactly one
    more time, and the wrapper returns what that second attempt yields. *)
Definition retries_after_every_failure : Prop :=
  forall (backend : Backend) (text method : str) (key : option str)
         (w : World),
    is_failure (tagged_result backend (backend_calls w) text method key)
    = true ->
    let (r, w') := try_summarize_text backend text method key w in
    adapter_calls w' = adapter_calls w + 2
    /\ r = Ok (render (tagged_result backend
                         (backend_calls
                            (after_attempt backend text method key w))
                         text method key)).

(** ** Vocabulary for the body, the subject and the trace *)

(** A part the first loop accepts: plain text whose disposition does not
    mention an attachment. *)
Definition plain_candidate (part : message) : bool :=
  is_text_plain part && negb (mentions_attachment part).

(** What the parser guarantees of a container: its content type is
    neither plain text nor HTML. *)
Definition container_is_not_text (p : message) : Prop :=
  is_multipart p = true -> is_text_plain p = false /\ is_text_html p = false.

(** The extraction result whose body is [body]. *)
Definition with_body (decode : str -> bytes -> result str) (msg : message)
  (body : result str) : result (str * str * str) :=
  subject <~ extract_subject decode msg ;;
  b <~ body ;;
  Ok (default [] (From_ (hdr msg)), subject, b).

(** The subject in the words of the specification: every element of the
    decoded header turned into text with its own character set, and all
    of them joined into a single string. *)
Fixpoint whole_header_text (decode : str -> bytes -> result str)
  (words : header_words) : result str :=
  match words with
  | [] => Ok []
  | (value, encoding) :: rest =>
      s <~ match value with
           | WBytes b => decode (or_else encoding (lit "utf-8")) b
           | WStr s => Ok s
           end ;;
      tail <~ whole_header_text decode rest ;;
      Ok (s ++ tail)
  end.

(** The four-line block of a record. *)
Definition record_block (sender subject summary : str) : str :=
  lit "From: " ++ sender ++ nl ++ lit "Subject: " ++ subject ++ nl
  ++ lit "Summary: " ++ summary ++ nl
  ++ lit "----------------------------------------".

(** The events that happened between [w] and a later world [w']. *)
Definition new_events (w w' : World) : list event :=
  skipn (length (trace w)) (trace w').

Definition no_store (evs : list event) : Prop :=
  Forall (fun e => is_store e = false) evs.

(** ** Codecs for the examples *)

Module Codecs.

Definition blit (s : string) : bytes := list_byte_of_string s.

Inductive utf8_state :=
| Start
| Pending (need : nat) (acc lo hi : N).

(** A byte met in state [Start]. *)
Definition utf8_start (b : N) : list N * utf8_state :=
  (if b <? 0x80 then ([b], Start)
   else if (0xC2 <=? b) && (b <=? 0xDF)
     then ([], Pending 1 (N.land b 0x1F) 0x80 0xBF)
   else if b =? 0xE0 then ([], Pending 2 (N.land b 0x0F) 0xA0 0xBF)
   else if b =? 0xED then ([], Pending 2 (N.land b 0x0F) 0x80 0x9F)
   else if (0xE1 <=? b) && (b <=? 0xEF)
     then ([], Pending 2 (N.land b 0x0F) 0x80 0xBF)
   else if b =? 0xF0 then ([], Pending 3 (N.land b 0x07) 0x90 0xBF)
   else if (0xF1 <=? b) && (b <=? 0xF3)
     then ([], Pending 3 (N.land b 0x07) 0x80 0xBF)
   else if b =? 0xF4 then ([], Pending 3 (N.land b 0x07) 0x80 0x8F)
   else ([], Start))%N.

(** One byte of input: an ill-formed or truncated sequence is dropped,
    and the byte that broke it is read again as a first byte. *)
Definition utf8_step (st : utf8_state) (b : N) : list N * utf8_state :=
  match st with
  | Start => utf8_start b
  | Pending need acc lo hi =>
      if ((lo <=? b) && (b <=? hi))%N then
        let acc' := (acc * 64 + N.land b 0x3F)%N in
        match need with
        | 0 | 1 => ([acc'], Start)
        | S n => ([], Pending n acc' 0x80 0xBF)
        end
      else utf8_start b
  end.

Fixpoint utf8_run (st : utf8_state) (bs : list N) : str :=
  match bs with
  | [] => []
  | b :: rest => let (out, st') := utf8_step st b in out ++ utf8_run st' rest
  end.

(** The [utf-8] codec with [errors="ignore"]. *)
Definition utf_8_decode (b : bytes) : str := utf8_run Start (map Byte.to_N b).

(** The [latin-1] codec: every byte is its own code point. *)
Definition latin_1_decode (b : bytes) : str := map Byte.to_N b.

(** The [ascii] codec with [errors="ignore"]. *)
Definition ascii_decode (b : bytes) : str :=
  filter (fun c => (c < 0x80)%N) (map Byte.to_N b).

(** A codec registry that knows three encodings, each under two of its
    names, and raises [LookupError] for any other name. *)
Definition python_decode (encoding : str) (b : bytes) : result str :=
  if bool_decide (encoding ∈ [lit "utf-8"; lit "utf8"])
  then Ok (utf_8_decode b)
  else if bool_decide (encoding ∈ [lit "iso-8859-1"; lit "latin-1"])
  then Ok (latin_1_decode b)
  else if bool_decide (encoding ∈ [lit "us-ascii"; lit "ascii"])
  then Ok (ascii_decode b)
  else Raise LookupError.

End Codecs.

Import Codecs.

(** ** Example messages *)

Module Examples.

Definition world0 : World := mkWorld [] ∅ None.

(** Fails on its first call, answers on every later one. *)
Definition flaky_stub : Backend :=
  fun _ n _ =>
    match n with
    | 0 => Raised (lit "connection reset")
    | S _ => Returned (lit "Meeting rescheduled to 3pm tomorrow.")
    end.

(** Fails on every call. *)
Definition dead_stub : Backend := fun _ _ _ => Raised (lit "timeout").

(** Answers every call. *)
Definition echo_stub : Backend :=
  fun _ _ _ => Returned (lit "Meeting rescheduled to 3pm tomorrow.").

Definition meeting : str := lit "Meeting moved to 3pm tomorrow.".

Definition dq : str := [34%N].

(** The decoded header of a part that has no Subject. *)
Definition no_subject : result header_words := Ok [(WStr [], None)].

Definition part (ctype : str) (disposition charset : option str)
  (payload : bytes) : message :=
  Single (mkHeaders None no_subject ctype disposition charset) payload.

Definition attachment_named (name : str) : option str :=
  Some (lit "attachment; filename=" ++ dq ++ name ++ dq).

(** A report with two attachments and a plain-text attachment before its
    HTML and plain-text alternatives, and one more attachment after. *)
Definition report_parts : list message :=
  [ part (lit "application/pdf") (attachment_named (lit "q3.pdf")) None
      (blit "%PDF");
    part (lit "text/plain") (attachment_named (lit "notes.txt")) None
      (blit "raw notes");
    part (lit "text/html") None (Some (lit "utf-8"))
      (blit "<p>See the caf" ++ [xc3; xa9]%byte ++ blit " figures.</p>");
    part (lit "text/plain") None (Some (lit "iso-8859-1"))
      (blit "See the caf" ++ [xe9]%byte ++ blit " figures.");
    part (lit "image/png") (attachment_named (lit "chart.png")) None
      [x89; x50; x4e; x47]%byte ].

Definition report : message :=
  Multipart
    (mkHeaders (Some (lit "Ana <ana@example.org>"))
       (Ok [(WStr (lit "Quarterly report"), None)])
       (lit "multipart/mixed") None None)
    report_parts.

(** [Subject: =?x-unknown?q?hi?=] over a one-line plain body. *)
Definition unknown_charset_subject : message :=
  Single
    (mkHeaders (Some (lit "a@example.org"))
       (Ok [(WBytes (blit "hi"), Some (lit "x-unknown"))])
       (lit "text/plain") None None)
    (blit "hello" ++ [x0a]%byte).

(** [Subject: Re: =?utf-8?q?caf=C3=A9?=] over the same body. *)
Definition reply_subject_words : header_words :=
  [ (WBytes (blit "Re: "), None);
    (WBytes (blit "caf" ++ [xc3; xa9]%byte), Some (lit "utf-8")) ].

Definition reply : message :=
  Single
    (mkHeaders (Some (lit "a@example.org")) (Ok reply_subject_words)
       (lit "text/plain") None None)
    (blit "hello" ++ [x0a]%byte).

(** A message whose only part is an HTML file sent as an attachment. *)
Definition html_attachment_only : message :=
  Multipart
    (mkHeaders (Some (lit "a@b")) (Ok [(WStr (lit "x"), None)])
       (lit "multipart/mixed") None None)
    [ part (lit "text/html") (attachment_named (lit "r.html")) None
        (blit "<p>hi</p>") ].

(** A message whose only part is a picture sent as an attachment. *)
Definition picture_only : message :=
  Multipart
    (mkHeaders (Some (lit "a@b")) (Ok [(WStr (lit "x"), None)])
       (lit "multipart/mixed") None None)
    [ part (lit "image/png") (attachment_named (lit "c.png")) None
        [x89; x50; x4e; x47]%byte ].

(** A message whose plain-text body is two spaces and a line end. *)
Definition blank_message : message :=
  Single
    (mkHeaders (Some (lit "a@b")) (Ok [(WStr (lit "x"), None)])
       (lit "text/plain") None None)
    (blit "  " ++ [x0a]%byte).

Definition inbox : list (bytes * message) :=
  [ (blit "1", blank_message); (blit "2", report) ].

Definition report_text : str := lit "See the caf" ++ [0xE9%N] ++ lit " figures.".

Definition report_summary : str := lit "Meeting rescheduled to 3pm tomorrow.".

(** A text with a surrogate code point cannot be encoded as UTF-8. *)
Definition has_surrogate (s : str) : bool :=
  existsb (fun c => (0xD800 <=? c) && (c <=? 0xDFFF))%N s.

Definition surrogates_not_allowed : exn :=
  Exception_
    (lit "'utf-8' codec can't encode character: surrogates not allowed").

(** A machine whose console and files are UTF-8, where [/] is a
    directory and a path may not hold a NUL. *)
Definition posix_host : Host :=
  mkHost
    (fun _ s =>
       if has_surrogate s then Raise surrogates_not_allowed else Ok tt)
    (fun _ path =>
       if bool_decide (path = lit "/")
       then Raise (Exception_ (lit "[Errno 21] Is a directory: '/'"))
       else if existsb (N.eqb 0) path
       then Raise (Exception_ (lit "embedded null byte"))
       else Ok tt)
    (fun _ _ data =>
       if has_surrogate data then Raise surrogates_not_allowed else Ok tt).

(** A server with four messages, the third of which it does not hand
    out. *)
Definition four_messages : IMAP4 :=
  mkIMAP4
    (fun _ => Ok tt)
    (fun _ => Ok (lit "OK", [Some (blit "1 2  3 4")]))
    (fun eid _ =>
       if bool_decide (eid = blit "3")
       then Ok (lit "NO", Raise IndexError)
       else Ok (lit "OK", Ok (blit "Subject: " ++ eid)))
    (fun _ _ _ => Ok tt)
    (Ok tt).

(** A server that refuses the search, and whose connection is lost for
    any later command. *)
Definition refusing : IMAP4 :=
  mkIMAP4
    (fun _ => Ok tt)
    (fun _ => Ok (lit "NO", []))
    (fun _ _ => Raise (Exception_ (lit "FETCH illegal in state AUTH")))
    (fun _ _ _ => Raise (Exception_ (lit "connection lost")))
    (Raise (Exception_ (lit "connection lost"))).

Definition run_loop (mark_read : bool) : result unit * World :=
  main_loop echo_stub python_decode posix_host four_messages
    (lit "transformer") None mark_read None inbox world0.

(** A message whose first plain-text part is a file sent as an
    attachment, the word written with a capital, before the text of the
    message. *)
Definition capitalised_attachment : message :=
  Multipart
    (mkHeaders (Some (lit "a@b")) (Ok [(WStr (lit "x"), None)])
       (lit "multipart/mixed") None None)
    [ part (lit "text/plain")
        (Some (lit "Attachment; filename=" ++ dq ++ lit "notes.txt" ++ dq))
        None (blit "raw notes");
      part (lit "text/plain") None None (blit "the message") ].

(** A message whose only part is inline plain text with a file name that
    holds the word attachment. *)
Definition inline_named_attachment : message :=
  Multipart
    (mkHeaders (Some (lit "a@b")) (Ok [(WStr (lit "x"), None)])
       (lit "multipart/mixed") None None)
    [ part (lit "text/plain")
        (Some (lit "inline; filename=" ++ dq ++ lit "attachment.txt" ++ dq))
        None (blit "hello") ].

End Examples.

Import Examples.

(** ** The end of [main] *)

Section MainTail.

Variable backend : Backend.
Variable decode : str -> bytes -> result str.
Variable host : Host.

(** [email.message_from_bytes] *)
Variable message_from_bytes : bytes -> message.

Variable method : str.
Variable openai_api_key : option str.
Variable n : Z.
Variable unread_only : bool.
Variable mark_read : bool.
Variable save_file : option str.

(** The fetched pairs as the loop reads them: each raw text through the
    parser that [extract_email_content] starts with. *)
Definition parse_fetched (emails : list (bytes * bytes))
  : list (bytes * message) :=
  map (fun email => (fst email, message_from_bytes (snd email))) emails.

(** Lines 171 to 186 of [main], with the answers given at its prompts. *)
Definition main_after_prompts (mail : IMAP4) : M unit :=
  emails <- fetch_emails mail n unread_only ;;
  match emails with
  | [] => logging INFO (lit "No emails found.")
  | _ :: _ =>
      main_loop backend decode host mail method openai_api_key mark_read
        save_file (parse_fetched emails) ;;
      lift (logout mail)
  end.

End MainTail.

(** ** Vocabulary for the further properties *)

(** The search criterion [fetch_emails] sends. *)
Definition criterion (unread_only : bool) : str :=
  if unread_only then lit "UNSEEN" else lit "ALL".

(** The server answers OK to the FETCH of [eid]. *)
Definition fetch_ok (mail : IMAP4) (eid : bytes) : bool :=
  match fetch mail eid (lit "(RFC822)") with
  | Ok (status, _) => bool_decide (status = lit "OK")
  | Raise _ => false
  end.

(** The FETCH of [eid] returns, and with its message when the status is
    OK. *)
Definition fetch_answers (mail : IMAP4) (eid : bytes) : Prop :=
  exists status msg_data,
    fetch mail eid (lit "(RFC822)") = Ok (status, msg_data)
    /\ (status = lit "OK" -> exists raw, msg_data = Ok raw).


(** Events that are calls of the adapter or of a library, or log lines. *)
Definition is_call_or_log (e : event) : bool :=
  match e with
  | EvSummarize _ _ _ | EvBackend _ _ | EvLog _ _ => true
  | _ => false
  end.

(** The blocks printed, oldest first. *)
Definition printed (evs : list event) : list str :=
  omap (fun e => match e with EvPrint s => Some s | _ => None end) evs.

(** The identifiers of the messages marked as read, oldest first. *)
Definition store_ids (evs : list event) : list bytes :=
  omap (fun e => match e with EvStore eid _ _ => Some eid | _ => None end)
    evs.

(** The backend calls among [evs]. *)
Definition backend_events (evs : list event) : nat :=
  length (filter (fun e => is_backend e = true) evs).

(** A fetched message whose extraction returns a body with text. *)
Definition has_text (decode : str -> bytes -> result str)
  (email : bytes * message) : bool :=
  match extract_email_content decode (snd email) with
  | Ok (_, _, body) => negb (forallb isspace body)
  | Raise _ => false
  end.

(** A fetched message whose extraction returns. *)
Definition extracts (decode : str -> bytes -> result str)
  (email : bytes * message) : Prop :=
  exists content, extract_email_content decode (snd email) = Ok content.





(** Whatever has happened so far, the host prints every text and, with
    a destination configured, lets the file be opened and every text be
    written to it. *)
Definition obliging (host : Host) (save_file : option str) : Prop :=
  forall (w : World) (s : str),
    stdout_write host w s = Ok tt
    /\ match save_file with
       | Some path =>
           open_append host w path = Ok tt
           /\ file_write host w path s = Ok tt
       | None => True
       end.

(** The server answers every STORE command. *)
Definition store_returns (mail : IMAP4) : Prop :=
  forall eid command flags, store mail eid command flags = Ok tt.

(** The events of one run of the retry wrapper started after [n] library
    calls. *)
Definition wrapper_events (backend : Backend) (n : nat)
  (text method : str) (openai_api_key : option str) : list event :=
  let first := attempt_events backend n text method openai_api_key in
  if startswith unavailable_prefix
       (render (tagged_result backend n text method openai_api_key))
  then
    first ++ retry_log ::
      attempt_events backend
        (n + match selected method openai_api_key with
             | Some _ => 1
             | None => 0
             end)
        text method openai_api_key
  else first.

Definition is_error_log (e : event) : bool :=
  match e with EvLog ERROR _ => true | _ => false end.

(** The destination file against the console between two worlds, for a
    step that ended with [r] after printing [blocks]: the file has gained
    the blocks printed, a line end after each, except perhaps the last
    one when the step raised; no other file has changed; and no file at
    all has changed when no destination is configured. *)
Definition file_behind_console (save_file : option str) (w w' : World)
  (blocks : list str) (r : result unit) : Prop :=
  match save_file with
  | Some (c :: path) =>
      (exists written,
          default [] (fs w' !! (c :: path))
          = default [] (fs w !! (c :: path))
            ++ concat (map (fun s => s ++ nl) written)
          /\ (written = blocks
              \/ (exists last, blocks = written ++ [last]) /\ r <> Ok tt))
      /\ forall other : str,
           other <> c :: path -> fs w' !! other = fs w !! other
  | _ => fs w' = fs w
  end.

(** ** The disposition of a part, as the specification reads it *)

Definition ascii_lower (s : str) : str :=
  map (fun c => if (0x41 <=? c) && (c <=? 0x5A) then c + 32 else c)%N s.

Fixpoint before_semicolon (s : str) : str :=
  match s with
  | [] => []
  | c :: rest => if (c =? 59)%N then [] else c :: before_semicolon rest
  end.

(** The disposition type of RFC 2183: the value of the header up to its
    first semicolon, without the whitespace around it, letter case
    ignored. *)
Definition disposition (part : message) : option str :=
  match Content_Disposition (hdr part) with
  | None => None
  | Some value => Some (ascii_lower (strip (before_semicolon value)))
  end.

Definition is_attachment (part : message) : bool :=
  bool_decide (disposition part = Some (lit "attachment")).

(** The body of a multi-part message in the words of the specification:
    the text of the first plain-text part whose disposition is not
    attachment, else the text of the first HTML part, else nothing. *)
Definition body_by_disposition (decode : str -> bytes -> result str)
  (msg : message) : result str :=
  match List.find (fun p => is_text_plain p && negb (is_attachment p))
          (walk msg) with
  | Some p => decode_payload decode p
  | None =>
      match List.find is_text_html (walk msg) with
      | Some p => decode_payload decode p
      | None => Ok []
      end
  end.


(** ** More examples *)

Module MoreExamples.

(** Answers first with a summary that quotes the sender's own words,
    then with another one. *)
Definition quoting_stub : Backend :=
  fun _ n _ =>
    match n with
    | 0 => Returned (lit "[Summary unavailable] is all the sender wrote.")
    | S _ => Returned (lit "The sender wrote a placeholder.")
    end.


(** An inbox whose second message has a subject in an unknown character
    set. *)
Definition inbox_with_bad_subject : list (bytes * message) :=
  [ (blit "1", blank_message);
    (blit "2", unknown_charset_subject);
    (blit "3", report) ].

(** A plain-text part sent as an attachment. *)
Definition notes_headers : headers :=
  mkHeaders (Some (lit "a@b")) (Ok [(WStr (lit "x"), None)])
    (lit "text/plain") (attachment_named (lit "notes.txt")) None.

Definition mixed_headers : headers :=
  mkHeaders (Some (lit "a@b")) (Ok [(WStr (lit "x"), None)])
    (lit "multipart/mixed") None None.

(** A machine that takes every text and every path. *)
Definition unlimited_host : Host :=
  mkHost (fun _ _ => Ok tt) (fun _ _ => Ok tt) (fun _ _ _ => Ok tt).

(** A parser stub that reads every raw text as the report. *)
Definition parse_as_report : bytes -> message := fun _ => report.

End MoreExamples.

Import MoreExamples.

(** * Properties *)

(** ** Counting events *)

Lemma backend_calls_app w evs f k :
  backend_calls (mkWorld (trace w ++ evs) f k)
  = backend_calls w + length (filter (fun e => is_backend e = true) evs).
Proof.
  unfold backend_calls. simpl. by rewrite filter_app, length_app.
Qed.

Lemma adapter_calls_app w evs f k :
  adapter_calls (mkWorld (trace w ++ evs) f k)
  = adapter_calls w + length (filter (fun e => is_summarize e = true) evs).
Proof.
  unfold adapter_calls. simpl. by rewrite filter_app, length_app.
Qed.

Lemma backend_calls_emit e w :
  backend_calls (emit e w)
  = backend_calls w + (if is_backend e then 1 else 0).
Proof.
  unfold emit. rewrite backend_calls_app. by destruct e.
Qed.

Lemma attempt_backend_calls backend n text method key :
  length (filter (fun e => is_backend e = true)
            (attempt_events backend n text method key))
  = match selected method key with Some _ => 1 | None => 0 end.
Proof.
  unfold attempt_events.
  destruct (selected method key) as [k|]; [|done].
  destruct (backend k n text); by destruct k.
Qed.

Lemma attempt_adapter_calls backend n text method key :
  length (filter (fun e => is_summarize e = true)
            (attempt_events backend n text method key)) = 1.
Proof.
  unfold attempt_events.
  destruct (selected method key) as [k|]; [|done].
  destruct (backend k n text); by destruct k.
Qed.

(** ** One attempt, step by step *)

Lemma world_eta w : mkWorld (trace w) (fs w) (openai_api_key_attr w) = w.
Proof. by destruct w. Qed.

(** Running [summarize_text] always yields a string: the rendering of the
    attempt's tagged result. *)
Lemma summarize_text_run backend text method key w :
  summarize_text backend text method key w
  = (Ok (render (tagged_result backend (backend_calls w) text method key)),
     after_attempt backend text method key w).
Proof.
  unfold summarize_text, after_attempt, tagged_result, attempt_events,
    selected.
  unfold bind at 1. unfold tell at 1. cbv beta iota.
  destruct (bool_decide (method = lit "openai") && truthy_opt key) eqn:Ho.
  - unfold bind at 1, set_openai_api_key, try_except, bind,
      ChatCompletion_create, call_backend, logging, tell, ret.
    cbv beta iota zeta.
    replace (backend_calls
               {| trace := trace (emit (EvSummarize text method key) w);
                  fs := fs (emit (EvSummarize text method key) w);
                  openai_api_key_attr := key |})
      with (backend_calls w)
      by (unfold backend_calls; simpl; rewrite filter_app, length_app;
          simpl; lia).
    destruct (backend OpenAI (backend_calls w) text) as [s|e]; simpl;
      unfold emit; simpl; by rewrite <- !app_assoc.
  - destruct (bool_decide (method = lit "transformer")) eqn:Ht.
    + unfold try_except, summarizer, call_backend, bind, logging, tell, ret.
      cbv beta iota zeta.
      rewrite backend_calls_emit. simpl. rewrite Nat.add_0_r.
      destruct (backend Transformer (backend_calls w) text) as [s|e]; simpl;
        unfold emit; simpl; by rewrite <- !app_assoc.
    + unfold ret. by unfold emit.
Qed.

(** ** The retry wrapper, step by step *)

Lemma try_summarize_text_run backend text method key w :
  try_summarize_text backend text method key w
  = let r1 := tagged_result backend (backend_calls w) text method key in
    let w1 := after_attempt backend text method key w in
    if startswith unavailable_prefix (render r1)
    then summarize_text backend text method key (emit retry_log w1)
    else (Ok (render r1), w1).
Proof.
  unfold try_summarize_text. unfold bind at 1.
  rewrite summarize_text_run. cbv zeta.
  destruct (startswith unavailable_prefix _); [|done].
  unfold bind, logging, tell. done.
Qed.

Lemma error_placeholder_sniffed k :
  startswith unavailable_prefix (error_placeholder k) = true.
Proof. by destruct k. Qed.

Lemma no_method_not_sniffed : startswith unavailable_prefix no_method = false.
Proof. reflexivity. Qed.

Lemma after_attempt_backend_calls backend text method key w :
  backend_calls (after_attempt backend text method key w)
  = backend_calls w
    + match selected method key with Some _ => 1 | None => 0 end.
Proof.
  unfold after_attempt. by rewrite backend_calls_app, attempt_backend_calls.
Qed.

Lemma after_attempt_adapter_calls backend text method key w :
  adapter_calls (after_attempt backend text method key w)
  = adapter_calls w + 1.
Proof.
  unfold after_attempt. by rewrite adapter_calls_app, attempt_adapter_calls.
Qed.

Lemma adapter_calls_retry_log w :
  adapter_calls (emit retry_log w) = adapter_calls w.
Proof. unfold emit. rewrite adapter_calls_app. simpl. lia. Qed.

Lemma backend_calls_retry_log w :
  backend_calls (emit retry_log w) = backend_calls w.
Proof. rewrite backend_calls_emit. simpl. lia. Qed.

(** ** Whitespace-only text *)

Lemma lstrip_nil_iff s : lstrip s = [] <-> forallb isspace s = true.
Proof.
  induction s as [|c s IH]; simpl; [done|].
  destruct (isspace c); simpl; [done|]. split; discriminate.
Qed.

Lemma lstrip_blank_nil s : forallb isspace (lstrip s) = true -> lstrip s = [].
Proof.
  induction s as [|c s IH]; simpl; [done|].
  destruct (isspace c) eqn:Hc; [done|]. simpl. by rewrite Hc.
Qed.

Lemma forallb_rev (f : N -> bool) s : forallb f (rev s) = forallb f s.
Proof.
  induction s as [|c s IH]; simpl; [done|].
  rewrite forallb_app, IH. simpl. rewrite andb_true_r. apply andb_comm.
Qed.

(** [body.strip()] is empty exactly when [body] is empty or holds only
    whitespace. *)
Lemma strip_nil_iff s : strip s = [] <-> forallb isspace s = true.
Proof.
  unfold strip, rstrip. split.
  - intros H. apply lstrip_nil_iff, lstrip_blank_nil.
    rewrite <- forallb_rev. apply lstrip_nil_iff.
    apply (f_equal (@rev N)) in H. by rewrite rev_involutive in H.
  - intros H. apply lstrip_nil_iff in H. by rewrite H.
Qed.

Lemma not_strip_blank s :
  negb (truthy (strip s)) = forallb isspace s.
Proof.
  destruct (forallb isspace s) eqn:Hs.
  - apply strip_nil_iff in Hs. by rewrite Hs.
  - destruct (strip s) eqn:Hstrip; [|done].
    apply strip_nil_iff in Hstrip. congruence.
Qed.

(** ** Body selection *)

Section BodySelection.

Variable decode : str -> bytes -> result str.

Lemma plain_loop_first before part after :
  Forall (fun p => plain_candidate p = false) before ->
  plain_candidate part = true ->
  plain_loop decode (before ++ part :: after)
  = Some (decode_payload decode part).
Proof.
  unfold plain_candidate. intros Hbefore Hpart.
  induction Hbefore as [|p before Hp _ IH]; simpl.
  - by rewrite Hpart.
  - by rewrite Hp.
Qed.

Lemma plain_loop_exhausted parts :
  Forall (fun p => plain_candidate p = false) parts ->
  plain_loop decode parts = None.
Proof.
  unfold plain_candidate.
  induction 1 as [|p parts Hp _ IH]; simpl; [done|]. by rewrite Hp.
Qed.

Lemma html_loop_first before part after :
  Forall (fun p => is_text_html p = false) before ->
  is_text_html part = true ->
  html_loop decode (before ++ part :: after)
  = Some (decode_payload decode part).
Proof.
  intros Hbefore Hpart.
  induction Hbefore as [|p before Hp _ IH]; simpl.
  - by rewrite Hpart.
  - by rewrite Hp.
Qed.

Lemma html_loop_exhausted parts :
  Forall (fun p => is_text_html p = false) parts ->
  html_loop decode parts = None.
Proof.
  induction 1 as [|p parts Hp _ IH]; simpl; [done|]. by rewrite Hp.
Qed.

(** A list whose only candidate is [part] splits around it. *)
Lemma only_candidate_split (parts : list message) (part : message) :
  filter (fun p => plain_candidate p = true) parts = [part] ->
  plain_candidate part = true /\
  exists before after,
    parts = before ++ part :: after
    /\ Forall (fun p => plain_candidate p = false) before.
Proof.
  induction parts as [|p parts IH]; [done|].
  rewrite filter_cons. destruct (decide (plain_candidate p = true)) as [Hp|Hp].
  - intros [= -> _]. split; [done|]. by exists [], parts.
  - intros Hf. destruct (IH Hf) as (Hpart & before & after & -> & Hb).
    split; [done|]. exists (p :: before), after. split; [done|].
    constructor; [|done]. by destruct (plain_candidate p).
Qed.

Lemma extract_email_content_body msg :
  extract_email_content decode msg
  = with_body decode msg (extract_body decode msg).
Proof. reflexivity. Qed.

End BodySelection.

(** ** What each step adds to the trace *)

Lemma new_events_app w w' evs :
  trace w' = trace w ++ evs -> new_events w w' = evs.
Proof. unfold new_events. intros ->. apply drop_app_length. Qed.

Lemma no_store_In evs eid cmd flags :
  no_store evs -> ~ In (EvStore eid cmd flags) evs.
Proof.
  intros Hns Hin. unfold no_store in Hns. rewrite Forall_forall in Hns.
  apply list_elem_of_In in Hin. by specialize (Hns _ Hin).
Qed.

Lemma attempt_events_no_store backend n text method key :
  no_store (attempt_events backend n text method key).
Proof.
  unfold attempt_events, no_store.
  destruct (selected method key) as [k|]; [|by repeat constructor].
  destruct (backend k n text); destruct k; by repeat constructor.
Qed.

(** The wrapper always returns a string, touches no file, and adds no
    IMAP command to the trace. *)
Lemma try_summarize_text_trace backend text method key w :
  exists summary w1 evs,
    try_summarize_text backend text method key w = (Ok summary, w1)
    /\ trace w1 = trace w ++ evs
    /\ no_store evs
    /\ fs w1 = fs w.
Proof.
  rewrite try_summarize_text_run. cbv zeta.
  destruct (startswith unavailable_prefix _).
  - rewrite summarize_text_run. eexists _, _, _. split; [done|].
    unfold after_attempt at 1. cbn [trace fs emit].
    unfold after_attempt at 1 3. cbn [trace fs].
    rewrite <- !app_assoc. split; [done|]. split; [|done].
    apply Forall_app. split; [apply attempt_events_no_store|].
    apply Forall_app. split; [by repeat constructor|].
    apply attempt_events_no_store.
  - eexists _, _, _. split; [done|]. unfold after_attempt. cbn [trace fs].
    split; [done|]. split; [apply attempt_events_no_store|done].
Qed.

Lemma output_summary_unfold host sender subject summary save_file :
  output_summary host sender subject summary save_file
  = (print host (record_block sender subject summary) ;;
     match save_file with
     | Some path =>
         if truthy path
         then append_to_file host path
                (record_block sender subject summary ++ nl)
         else ret tt
     | None => ret tt
     end).
Proof. reflexivity. Qed.

Lemma mark_as_read_run mail eid w :
  mark_as_read mail eid w
  = (store mail eid (lit "+FLAGS") (lit "\Seen"),
     emit (EvStore eid (lit "+FLAGS") (lit "\Seen")) w).
Proof. reflexivity. Qed.

Lemma printed_singleton_In evs block :
  printed evs = [block] -> In (EvPrint block) evs.
Proof.
  unfold printed. induction evs as [|e evs IH]; [done|].
  cbn [omap list_omap].
  destruct e; try (intros H; right; by apply IH).
  intros [= -> _]. by left.
Qed.

(** The sink: what it adds to the trace and what it does to the files. *)
Lemma output_summary_effect host sender subject summary save_file w :
  exists evs,
    let (r, w') := output_summary host sender subject summary save_file w in
    trace w' = trace w ++ evs
    /\ no_store evs
    /\ backend_events evs = 0
    /\ (r = Ok tt -> printed evs = [record_block sender subject summary])
    /\ (forall e, r = Raise e ->
          printed evs = []
          \/ printed evs = [record_block sender subject summary])
    /\ file_behind_console save_file w w' (printed evs) r.
Proof.
  rewrite output_summary_unfold.
  set (block := record_block sender subject summary). clearbody block.
  unfold print, append_to_file, create_if_absent, write_at_end, ask, bind,
    tell, ret.
  destruct (stdout_write host w block) as [[]|e0].
  2:{ exists []. rewrite app_nil_r.
      repeat split; try done; try (by left).
      unfold file_behind_console. destruct save_file as [[|c path]|]; try done.
      split; [|done]. exists []. cbn [map concat]. rewrite app_nil_r.
      split; [done|by left]. }
  destruct save_file as [[|c path]|]; cbn [truthy].
  - exists [EvPrint block]. repeat split; try done; try (by right).
  - destruct (open_append host _ (c :: path)) as [[]|e1].
    2:{ exists [EvPrint block].
        repeat split; try done; try (by right); try (by repeat constructor).
        exists []. cbn [map concat fs emit]. rewrite app_nil_r.
        split; [done|]. right. split; [by exists block|done]. }
    cbn [fs trace emit openai_api_key_attr].
    destruct (file_write host _ (c :: path) (block ++ nl)) as [[]|e2].
    + exists [EvPrint block; EvAppend (c :: path) (block ++ nl)].
      rewrite lookup_insert_eq, <- app_assoc.
      cbn [default from_option id].
      repeat split; try done; try (by repeat constructor).
      * exists [block]. cbn [fs]. rewrite lookup_insert_eq.
        cbn [default from_option id map concat]. rewrite app_nil_r.
        split; [done|by left].
      * intros other Hother. cbn [fs]. by rewrite !lookup_insert_ne.
    + exists [EvPrint block].
      repeat split; try done; try (by right); try (by repeat constructor).
      * exists []. cbn [fs]. rewrite lookup_insert_eq.
        cbn [default from_option id map concat]. rewrite app_nil_r.
        split; [done|]. right. split; [by exists block|done].
      * intros other Hother. cbn [fs]. by rewrite lookup_insert_ne.
  - exists [EvPrint block]. repeat split; try done; try (by right).
Qed.


Lemma output_summary_returns host sender subject summary save_file w :
  obliging host save_file ->
  fst (output_summary host sender subject summary save_file w) = Ok tt.
Proof.
  intros H. rewrite output_summary_unfold.
  set (block := record_block sender subject summary). clearbody block.
  unfold print, append_to_file, create_if_absent, write_at_end, ask, bind,
    tell, ret.
  rewrite (proj1 (H _ _)).
  destruct save_file as [[|c path]|]; cbn [truthy]; [done| |done].
  rewrite (proj1 (proj2 (H _ block))).
  cbn [fs trace emit openai_api_key_attr].
  by rewrite (proj2 (proj2 (H _ (block ++ nl)))).
Qed.

Section MainProperties.

Variable backend : Backend.
Variable decode : str -> bytes -> result str.
Variable host : Host.
Variable mail : IMAP4.
Variable method : str.
Variable openai_api_key : option str.
Variable save_file : option str.

(** A message with a blank body costs one warning and nothing else. *)
Lemma main_iteration_blank mark_read eid msg w sender subject body :
  extract_email_content decode msg = Ok (sender, subject, body) ->
  forallb isspace body = true ->
  main_iteration backend decode host mail method openai_api_key mark_read
    save_file (eid, msg) w
  = (Ok tt, emit (EvLog WARNING (no_body_warning sender subject)) w).
Proof.
  intros Hex Hblank. unfold main_iteration, bind at 1, lift.
  by rewrite Hex, not_strip_blank, Hblank.
Qed.

(** A message with text in its body goes through the wrapper, then the
    sink, then the optional IMAP command. *)
Lemma main_iteration_text mark_read eid msg w sender subject body :
  extract_email_content decode msg = Ok (sender, subject, body) ->
  forallb isspace body = false ->
  exists summary w1,
    try_summarize_text backend body method openai_api_key w
    = (Ok summary, w1)
    /\ main_iteration backend decode host mail method openai_api_key
         mark_read save_file (eid, msg) w
       = (output_summary host sender subject summary save_file ;;
          if mark_read then mark_as_read mail eid else ret tt) w1.
Proof.
  intros Hex Htext.
  destruct (try_summarize_text_trace backend body method openai_api_key w)
    as (summary & w1 & evs1 & Htry & _).
  exists summary, w1. split; [done|].
  unfold main_iteration, bind at 1, lift.
  rewrite Hex, not_strip_blank, Htext. cbn [negb].
  unfold bind at 1. by rewrite Htry.
Qed.

(** The IMAP commands of one turn: at most one, for this message, and
    only after its record was printed. *)
Lemma main_iteration_stores mark_read eid msg w :
  exists evs,
    trace (snd (main_iteration backend decode host mail method
                  openai_api_key mark_read save_file (eid, msg) w))
    = trace w ++ evs
    /\ forall eid' cmd flags,
         In (EvStore eid' cmd flags) evs ->
         eid' = eid /\ mark_read = true
         /\ exists sender subject body summary,
              extract_email_content decode msg = Ok (sender, subject, body)
              /\ forallb isspace body = false
              /\ In (EvPrint (record_block sender subject summary)) evs.
Proof.
  destruct (extract_email_content decode msg) as [[[sender subject] body]|e]
    eqn:Hex.
  - destruct (forallb isspace body) eqn:Hblank.
    + rewrite (main_iteration_blank _ _ _ _ _ _ _ Hex Hblank).
      eexists. split; [done|]. intros ? ? ? [H|[]]. discriminate H.
    + destruct (main_iteration_text mark_read eid msg w _ _ _ Hex Hblank)
        as (summary & w1 & Htry & ->).
      destruct (try_summarize_text_trace backend body method openai_api_key
                  w) as (summary' & w1' & evs1 & Htry' & Ht1 & Hns1 & _).
      rewrite Htry in Htry'. injection Htry' as <- <-.
      destruct (output_summary_effect host sender subject summary save_file
                  w1) as [evs2 H2].
      unfold bind.
      destruct (output_summary host sender subject summary save_file w1)
        as [[[]|e] w2].
      * destruct H2 as (Ht2 & Hns2 & _ & Hp & _).
        apply printed_singleton_In in Hp; [|done].
        destruct mark_read.
        -- rewrite mark_as_read_run. cbn [snd trace emit]. rewrite Ht2, Ht1.
           exists (evs1 ++ evs2
                   ++ [EvStore eid (lit "+FLAGS") (lit "\Seen")]).
           split; [by rewrite <- !app_assoc|].
           intros eid' cmd flags Hin.
           apply in_app_or in Hin as [Hin|Hin];
             [by apply no_store_In in Hin|].
           apply in_app_or in Hin as [Hin|[Hin|[]]];
             [by apply no_store_In in Hin|].
           injection Hin as <- <- <-. split; [done|]. split; [done|].
           exists sender, subject, body, summary.
           repeat split; try done.
           apply in_or_app. right. apply in_or_app. by left.
        -- unfold ret. cbn [snd]. rewrite Ht2, Ht1.
           exists (evs1 ++ evs2). split; [by rewrite <- app_assoc|].
           intros eid' cmd flags Hin.
           apply in_app_or in Hin as [Hin|Hin]; by apply no_store_In in Hin.
      * destruct H2 as (Ht2 & Hns2 & _). cbn [snd]. rewrite Ht2, Ht1.
        exists (evs1 ++ evs2). split; [by rewrite <- app_assoc|].
        intros eid' cmd flags Hin.
        apply in_app_or in Hin as [Hin|Hin]; by apply no_store_In in Hin.
  - exists []. unfold main_iteration, bind, lift. rewrite Hex.
    split; [by rewrite app_nil_r|]. intros ? ? ? [].
Qed.

End MainProperties.

Section LoopProperties.

Variable backend : Backend.
Variable decode : str -> bytes -> result str.
Variable host : Host.
Variable mail : IMAP4.
Variable method : str.
Variable openai_api_key : option str.
Variable mark_read : bool.
Variable save_file : option str.

(** Every IMAP command of a run of the loop belongs to a fetched message
    whose body has text and whose record was printed in that run. *)
Lemma main_loop_stores emails w :
  exists evs,
    trace (snd (main_loop backend decode host mail method openai_api_key
                  mark_read save_file emails w))
    = trace w ++ evs
    /\ forall eid cmd flags,
         In (EvStore eid cmd flags) evs ->
         mark_read = true
         /\ exists msg sender subject body summary,
              In (eid, msg) emails
              /\ extract_email_content decode msg = Ok (sender, subject, body)
              /\ forallb isspace body = false
              /\ In (EvPrint (record_block sender subject summary)) evs.
Proof.
  revert w. induction emails as [|[eid0 msg0] rest IH]; intros w.
  - exists []. split; [by rewrite app_nil_r|]. intros ? ? ? [].
  - destruct (main_iteration_stores backend decode host mail method
                openai_api_key save_file mark_read eid0 msg0 w)
      as (evs1 & Ht1 & Hst1).
    cbn [main_loop]. unfold bind at 1.
    destruct (main_iteration _ _ _ _ _ _ _ _ (eid0, msg0) w) as [[[]|e] w1].
    + destruct (IH w1) as (evs2 & Ht2 & Hst2).
      exists (evs1 ++ evs2). cbn [snd] in Ht1. rewrite Ht2, Ht1.
      split; [by rewrite app_assoc|].
      intros eid cmd flags Hin. apply in_app_or in Hin as [Hin|Hin].
      * destruct (Hst1 _ _ _ Hin)
          as (-> & Hmark & sender & subject & body & summary & Hex & Ht & Hp).
        split; [done|]. exists msg0, sender, subject, body, summary.
        repeat split; [by left|done|done|]. apply in_or_app. by left.
      * destruct (Hst2 _ _ _ Hin)
          as (Hmark & msg & sender & subject & body & summary
              & Hmem & Hex & Ht & Hp).
        split; [done|]. exists msg, sender, subject, body, summary.
        repeat split; [by right|done|done|]. apply in_or_app. by right.
    + exists evs1. split; [done|].
      intros eid cmd flags Hin.
      destruct (Hst1 _ _ _ Hin)
        as (-> & Hmark & sender & subject & body & summary & Hex & Ht & Hp).
      split; [done|]. exists msg0, sender, subject, body, summary.
      repeat split; [by left|done|done|done].
Qed.

End LoopProperties.

(** ** When extraction returns, and when the body is empty *)

Section ExtractionReturns.

Variable decode : str -> bytes -> result str.

(** The decoder never raises: every character set it is asked for is
    one it knows. *)
Hypothesis decode_total : forall encoding b, exists s, decode encoding b = Ok s.

Lemma decode_payload_returns part :
  container_is_not_text part ->
  is_text_plain part = true \/ is_text_html part = true ->
  exists s, decode_payload decode part = Ok s.
Proof.
  intros Hwf Htext. unfold decode_payload.
  destruct part as [h b|h parts]; cbn [get_payload_decode].
  - apply decode_total.
  - destruct (Hwf eq_refl) as [Hp Hh]. destruct Htext; congruence.
Qed.

Lemma plain_loop_returns parts :
  Forall container_is_not_text parts ->
  forall r, plain_loop decode parts = Some r -> exists s, r = Ok s.
Proof.
  induction 1 as [|p parts Hp _ IH]; intros r; simpl; [done|].
  destruct (is_text_plain p) eqn:Hplain; cbn [andb]; [|apply IH].
  destruct (negb (mentions_attachment p)); [|apply IH].
  intros [= <-]. apply decode_payload_returns; auto.
Qed.

Lemma html_loop_returns parts :
  Forall container_is_not_text parts ->
  forall r, html_loop decode parts = Some r -> exists s, r = Ok s.
Proof.
  induction 1 as [|p parts Hp _ IH]; intros r; simpl; [done|].
  destruct (is_text_html p) eqn:Hhtml; [|apply IH].
  intros [= <-]. apply decode_payload_returns; auto.
Qed.

Lemma extract_body_returns msg :
  Forall container_is_not_text (walk msg) ->
  exists body, extract_body decode msg = Ok body.
Proof.
  intros Hwf. unfold extract_body.
  destruct (is_multipart msg) eqn:Hmulti.
  - destruct (plain_loop decode (walk msg)) as [r|] eqn:Hplain;
      [by apply (plain_loop_returns _ Hwf)|].
    destruct (html_loop decode (walk msg)) as [r|] eqn:Hhtml;
      [by apply (html_loop_returns _ Hwf)|].
    by exists [].
  - assert (Hroot : container_is_not_text msg).
    { destruct msg; by inversion Hwf. }
    destruct (is_text_plain msg) eqn:Hplain;
      [apply decode_payload_returns; auto|].
    destruct (is_text_html msg) eqn:Hhtml;
      [apply decode_payload_returns; auto|].
    by exists [].
Qed.

(** With a decoder that never raises and a Subject that [decode_header]
    accepts, extraction of a parsed message returns. *)
Lemma extract_email_content_returns msg word words :
  Subject_words (hdr msg) = Ok (word :: words) ->
  Forall container_is_not_text (walk msg) ->
  exists sender subject body,
    extract_email_content decode msg = Ok (sender, subject, body).
Proof.
  intros Hsubject Hwf.
  destruct (extract_body_returns msg Hwf) as [body Hbody].
  unfold extract_email_content, extract_subject.
  rewrite Hsubject, Hbody. cbn [rbind].
  destruct word as [[s|b] encoding].
  - by exists (default [] (From_ (hdr msg))), s, body.
  - destruct (decode_total (or_else encoding (lit "utf-8")) b) as [s ->].
    by exists (default [] (From_ (hdr msg))), s, body.
Qed.

End ExtractionReturns.

(** Without a plain-text candidate and without an HTML part, the body is
    the empty string. *)
Lemma extract_body_without_text_part decode msg :
  (is_multipart msg = true ->
   Forall (fun p => plain_candidate p = false) (walk msg) ->
   Forall (fun p => is_text_html p = false) (walk msg) ->
   extract_body decode msg = Ok [])
  /\ (is_multipart msg = false ->
      is_text_plain msg = false -> is_text_html msg = false ->
      extract_body decode msg = Ok []).
Proof.
  unfold extract_body. split.
  - intros -> Hplain Hhtml.
    by rewrite (plain_loop_exhausted decode _ Hplain),
      (html_loop_exhausted decode _ Hhtml).
  - by intros -> -> ->.
Qed.

Example picture_only_has_empty_body :
  extract_email_content python_decode picture_only
  = Ok (lit "a@b", lit "x", []).
Proof. reflexivity. Qed.

(** ** Python string operations on examples *)

Example isspace_examples :
  map isspace [0x09; 0x0D; 0x0E; 0x1B; 0x1C; 0x20; 0x21; 0x85; 0xA0; 0x3000]%N
  = [true; true; false; false; true; true; false; true; true; true].
Proof. reflexivity. Qed.

Example strip_example :
  strip (lit "  Summary of the week. " ++ nl) = lit "Summary of the week.".
Proof. reflexivity. Qed.

Example contains_examples :
  contains (lit "attachment") (lit "inline; filename=attachment.txt") = true
  /\ contains (lit "attachment") (lit "None") = false
  /\ contains (lit "attachment") (lit "ATTACHMENT") = false.
Proof. by repeat split. Qed.

(** ** The example codecs and a run of the loop *)

Example utf_8_decode_ignores_invalid :
  utf_8_decode (blit "caf" ++ [xc3; xa9; x20; xff; xc3]%byte)
  = lit "caf" ++ [0xE9; 0x20]%N.
Proof. reflexivity. Qed.

Example utf_8_decode_drops_ill_formed :
  utf_8_decode ([xe2; x82; x41; xf0; x9f; x98; x80; xed; xa0; x80;
                 xc0; x80; xf4; x90; x80; x80; x42]%byte)
  = [0x41; 0x1F600; 0x42]%N.
Proof. reflexivity. Qed.

Example run_loop_trace :
  run_loop true
  = (Ok tt,
     mkWorld
       [ EvLog WARNING (no_body_warning (lit "a@b") (lit "x"));
         EvSummarize report_text (lit "transformer") None;
         EvBackend Transformer report_text;
         EvPrint (record_block (lit "Ana <ana@example.org>")
                    (lit "Quarterly report") report_summary);
         EvStore (blit "2") (lit "+FLAGS") (lit "\Seen") ]
       ∅ None).
Proof. reflexivity. Qed.

(** * Main results *)

(** C1, as stated, fails.  With the method [openai] and an empty API key
    no backend is configured: the first attempt is [BackendUnavailable],
    and the wrapper returns its placeholder after one invocation of the
    adapter, without the retry. *)
Lemma unavailable_is_not_retried :
  (let (r, w') :=
     try_summarize_text echo_stub meeting (lit "openai") (Some []) world0 in
   tagged_result echo_stub (backend_calls world0) meeting (lit "openai")
     (Some []) = BackendUnavailable
   /\ r = Ok no_method
   /\ adapter_calls w' = 1
   /\ trace w' = [EvSummarize meeting (lit "openai") (Some [])])
  /\ ~ retries_after_every_failure.
Proof.
  split; [by vm_compute|].
  intros H.
  specialize (H echo_stub meeting (lit "openai") (Some []) world0 eq_refl).
  vm_compute in H. destruct H as [H _]. discriminate H.
Qed.

(** C1, amended.  After a first attempt that is a [BackendError] the
    adapter is invoked exactly one more time, the backend is called a
    second time, and the wrapper returns what the second attempt yields.
    After a first attempt that is [BackendUnavailable] there is no retry:
    the adapter has been invoked once, no backend has been called, and the
    wrapper returns the unavailable placeholder. *)
Theorem retry_only_after_backend_error
  (backend : Backend) (text method : str) (key : option str) (w : World) :
  is_failure (tagged_result backend (backend_calls w) text method key)
  = true ->
  let (r, w') := try_summarize_text backend text method key w in
  match tagged_result backend (backend_calls w) text method key with
  | BackendUnavailable =>
      r = Ok no_method
      /\ adapter_calls w' = adapter_calls w + 1
      /\ backend_calls w' = backend_calls w
      /\ ~ In retry_log (skipn (length (trace w)) (trace w'))
  | _ =>
      r = Ok (render (tagged_result backend (S (backend_calls w))
                        text method key))
      /\ adapter_calls w' = adapter_calls w + 2
      /\ backend_calls w' = backend_calls w + 2
      /\ In retry_log (skipn (length (trace w)) (trace w'))
  end.
Proof.
  intros Hfail.
  rewrite try_summarize_text_run. cbv zeta.
  assert (Hn := after_attempt_backend_calls backend text method key w).
  assert (Ha := after_attempt_adapter_calls backend text method key w).
  destruct (tagged_result backend (backend_calls w) text method key)
    as [s| |k e] eqn:Hr1; [discriminate Hfail| |].
  - assert (Hsel : selected method key = None).
    { unfold tagged_result in Hr1.
      destruct (selected method key) as [k|]; [|done].
      by destruct (backend k (backend_calls w) text). }
    rewrite Hsel in Hn.
    change (render BackendUnavailable) with no_method.
    rewrite no_method_not_sniffed.
    split; [done|]. split; [lia|]. split; [lia|].
    unfold after_attempt, attempt_events. simpl. rewrite Hsel.
    rewrite drop_app_length. intros [H|[]]. discriminate H.
  - assert (Hsel : selected method key = Some k).
    { unfold tagged_result in Hr1.
      destruct (selected method key) as [k'|]; [|done].
      destruct (backend k' (backend_calls w) text); congruence. }
    rewrite Hsel in Hn.
    change (render (BackendError k e)) with (error_placeholder k).
    rewrite error_placeholder_sniffed, summarize_text_run.
    rewrite backend_calls_retry_log, Hn.
    replace (backend_calls w + 1) with (S (backend_calls w)) by lia.
    split; [done|].
    rewrite after_attempt_adapter_calls, after_attempt_backend_calls.
    rewrite adapter_calls_retry_log, backend_calls_retry_log, Hn, Ha, Hsel.
    split; [lia|]. split; [lia|].
    unfold after_attempt at 1. simpl.
    unfold after_attempt at 1. simpl.
    rewrite <- !app_assoc, drop_app_length.
    apply in_or_app. right. apply in_or_app. left. by left.
Qed.

Lemma retry_only_after_backend_error_witness :
  (let (r, w') :=
     try_summarize_text echo_stub meeting (lit "openai") (Some []) world0 in
   r = Ok no_method
   /\ adapter_calls w' = 1
   /\ backend_calls w' = 0
   /\ ~ In retry_log (skipn 0 (trace w')))
  /\
  (let (r, w') :=
     try_summarize_text flaky_stub meeting (lit "transformer") None world0 in
   r = Ok (lit "Meeting rescheduled to 3pm tomorrow.")
   /\ adapter_calls w' = 2
   /\ backend_calls w' = 2
   /\ In retry_log (skipn 0 (trace w'))).
Proof.
  split.
  - exact (retry_only_after_backend_error echo_stub meeting (lit "openai")
             (Some []) world0 eq_refl).
  - exact (retry_only_after_backend_error flaky_stub meeting
             (lit "transformer") None world0 eq_refl).
Defined.

(** C2, at a failing input.  For the subject [=?x-unknown?q?hi?=], whose
    character set no codec answers to, extraction raises [LookupError]:
    the bytes are not decoded as UTF-8. *)
Theorem unknown_subject_charset_raises :
  python_decode (lit "x-unknown") (blit "hi") = Raise LookupError
  /\ python_decode (lit "utf-8") (blit "hi") = Ok (lit "hi")
  /\ extract_email_content python_decode unknown_charset_subject
     = Raise LookupError.
Proof. by vm_compute. Qed.

(** C3, at failing inputs.  The code tells an attachment by looking for
    the lower-case word [attachment] anywhere in the text of the
    Content-Disposition header, not by the disposition the header
    declares.  (1) In a message whose first plain-text part is a file
    with the disposition [Attachment; filename="notes.txt"], followed by
    the one plain-text part that is not an attachment, the body is the
    attached file and not that part's text.  (2) In a message whose only
    part is inline plain text with the file name [attachment.txt], the
    part is passed over and the body is empty, not the part's text. *)
Theorem attachment_is_told_by_a_substring :
  (map is_attachment (tail (walk capitalised_attachment)) = [true; false]
   /\ map mentions_attachment (tail (walk capitalised_attachment))
      = [false; false]
   /\ body_by_disposition python_decode capitalised_attachment
      = Ok (lit "the message")
   /\ extract_email_content python_decode capitalised_attachment
      = Ok (lit "a@b", lit "x", lit "raw notes"))
  /\ (map is_attachment (tail (walk inline_named_attachment)) = [false]
      /\ map mentions_attachment (tail (walk inline_named_attachment))
         = [true]
      /\ body_by_disposition python_decode inline_named_attachment
         = Ok (lit "hello")
      /\ extract_email_content python_decode inline_named_attachment
         = Ok (lit "a@b", lit "x", [])).
Proof. by vm_compute. Qed.

(** C4. For every text, configuration and behaviour of the libraries,
    [summarize_text] returns a string and never raises: when no backend is
    selected the string is the unavailable placeholder, when the selected
    backend raises it is that backend's error placeholder, and otherwise it
    is the summary. *)
Theorem summarize_text_never_raises
  (backend : Backend) (text method : str) (key : option str) (w : World) :
  exists (s : str) (w' : World),
    summarize_text backend text method key w = (Ok s, w') /\
    match selected method key with
    | None => s = no_method
    | Some k =>
        match backend k (backend_calls w) text with
        | Raised _ => s = error_placeholder k
        | Returned reply => s = success_value k reply
        end
    end.
Proof.
  eexists _, _. split; [apply summarize_text_run|].
  unfold tagged_result.
  destruct (selected method key) as [k|]; [|done].
  destruct (backend k (backend_calls w) text); by destruct k.
Qed.

(** C5. With a backend configured whose first call fails: if its second
    call succeeds the wrapper returns that success value, if its second
    call fails too the wrapper returns the fixed error placeholder; either
    way the backend has been called exactly twice. *)
Theorem retry_once_after_backend_failure
  (backend : Backend) (text method : str) (key : option str) (w : World)
  (k : backend_kind) (e1 : str) :
  selected method key = Some k ->
  backend k (backend_calls w) text = Raised e1 ->
  let (r, w') := try_summarize_text backend text method key w in
  r = Ok (match backend k (S (backend_calls w)) text with
          | Returned reply => success_value k reply
          | Raised _ => error_placeholder k
          end)
  /\ backend_calls w' = backend_calls w + 2.
Proof.
  intros Hsel Hfirst.
  rewrite try_summarize_text_run. cbv zeta.
  assert (Hr1 : tagged_result backend (backend_calls w) text method key
                = BackendError k e1)
    by (unfold tagged_result; by rewrite Hsel, Hfirst).
  rewrite Hr1.
  change (render (BackendError k e1)) with (error_placeholder k).
  rewrite error_placeholder_sniffed, summarize_text_run.
  rewrite backend_calls_retry_log, !after_attempt_backend_calls,
    backend_calls_retry_log, after_attempt_backend_calls, Hsel.
  replace (backend_calls w + 1) with (S (backend_calls w)) by lia.
  split; [|lia].
  unfold tagged_result. rewrite Hsel.
  destruct (backend k (S (backend_calls w)) text); by destruct k.
Qed.

Lemma retry_once_after_backend_failure_witness :
  (let (r, w') :=
     try_summarize_text flaky_stub meeting (lit "transformer") None world0 in
   r = Ok (lit "Meeting rescheduled to 3pm tomorrow.")
   /\ backend_calls w' = 2)
  /\
  (let (r, w') :=
     try_summarize_text dead_stub meeting (lit "openai") (Some (lit "sk-1"))
       world0 in
   r = Ok api_error /\ backend_calls w' = 2).
Proof.
  split.
  - exact (retry_once_after_backend_failure flaky_stub meeting
             (lit "transformer") None world0 Transformer
             (lit "connection reset") eq_refl eq_refl).
  - exact (retry_once_after_backend_failure dead_stub meeting
             (lit "openai") (Some (lit "sk-1")) world0 OpenAI
             (lit "timeout") eq_refl eq_refl).
Defined.

(** C6, at a failing input.  For the subject [Re: =?utf-8?q?caf=C3=A9?=]
    the decoded header has two elements; the whole text is [Re: café],
    but the extracted subject is just the first element, [Re: ]. *)
Theorem subject_is_first_header_word_only :
  whole_header_text python_decode reply_subject_words
  = Ok (lit "Re: caf" ++ [0xE9%N])
  /\ extract_email_content python_decode reply
     = Ok (lit "a@example.org", lit "Re: ", lit "hello" ++ nl)
  /\ lit "Re: " <> lit "Re: caf" ++ [0xE9%N].
Proof. by vm_compute. Qed.

(** C7, at a failing input.  In a message whose only part is an HTML file
    sent as an attachment, the plain-text loop passes over the part
    because of its disposition, but the fallback loop takes it: the body
    is the attachment's markup, not the empty string. *)
Theorem html_attachment_becomes_body :
  Forall (fun p => mentions_attachment p = true)
    (tail (walk html_attachment_only))
  /\ extract_email_content python_decode html_attachment_only
     = Ok (lit "a@b", lit "x", lit "<p>hi</p>")
  /\ lit "<p>hi</p>" <> [].
Proof.
  split; [by repeat constructor|]. by vm_compute.
Qed.






(** C10. (1) Even with the mark-as-read flag on, the turn of the loop for
    a message whose body is empty or holds only whitespace sends no IMAP
    command: all it adds to the trace is its warning.  (2) In a run of
    the loop over any list of fetched messages, every mark-as-read command
    sent is for a fetched message whose body has text and whose record
    the same run has printed, and is sent only with the flag on. *)
Theorem skipped_messages_are_never_marked
  (backend : Backend) (decode : str -> bytes -> result str)
  (host : Host) (mail : IMAP4)
  (method : str) (key : option str) (mark_read : bool)
  (save_file : option str) (emails : list (bytes * message)) (w : World) :
  (forall eid msg sender subject body w0,
      extract_email_content decode msg = Ok (sender, subject, body) ->
      forallb isspace body = true ->
      new_events w0
        (snd (main_iteration backend decode host mail method key true
                save_file (eid, msg) w0))
      = [EvLog WARNING (no_body_warning sender subject)])
  /\
  (forall eid cmd flags,
      In (EvStore eid cmd flags)
        (new_events w
           (snd (main_loop backend decode host mail method key mark_read
                   save_file emails w))) ->
      mark_read = true
      /\ exists msg sender subject body summary,
           In (eid, msg) emails
           /\ extract_email_content decode msg = Ok (sender, subject, body)
           /\ forallb isspace body = false
           /\ In (EvPrint (record_block sender subject summary))
                (new_events w
                   (snd (main_loop backend decode host mail method key
                           mark_read save_file emails w)))).
Proof.
  split.
  - intros eid msg sender subject body w0 Hex Hblank.
    rewrite (main_iteration_blank backend decode host mail method key
               save_file true eid msg w0 _ _ _ Hex Hblank).
    by apply new_events_app.
  - destruct (main_loop_stores backend decode host mail method key
                mark_read save_file emails w) as (evs & Ht & Hst).
    rewrite (new_events_app _ _ _ Ht). exact Hst.
Qed.

Lemma skipped_messages_are_never_marked_witness :
  new_events world0
    (snd (main_iteration echo_stub python_decode posix_host four_messages
            (lit "transformer") None true None (blit "1", blank_message)
            world0))
  = [EvLog WARNING (no_body_warning (lit "a@b") (lit "x"))]
  /\ (true = true
      /\ exists msg sender subject body summary,
           In (blit "2", msg) inbox
           /\ extract_email_content python_decode msg
              = Ok (sender, subject, body)
           /\ forallb isspace body = false
           /\ In (EvPrint (record_block sender subject summary))
                (new_events world0 (snd (run_loop true)))).
Proof.
  pose proof (skipped_messages_are_never_marked echo_stub python_decode
                posix_host four_messages (lit "transformer") None true None
                inbox world0) as [H1 H2].
  split.
  - exact (H1 (blit "1") blank_message (lit "a@b") (lit "x")
             (lit "  " ++ nl) world0 eq_refl eq_refl).
  - apply (H2 (blit "2") (lit "+FLAGS") (lit "\Seen")).
    vm_compute. do 4 right. left. reflexivity.
Defined.

(** * Further properties *)

(** ** The adapter and the retry wrapper *)

Lemma attempt_events_calls_or_logs backend n text method key :
  Forall (fun e => is_call_or_log e = true)
    (attempt_events backend n text method key).
Proof.
  unfold attempt_events.
  destruct (selected method key) as [k|]; [|by repeat constructor].
  destruct (backend k n text); destruct k; by repeat constructor.
Qed.

Lemma attempt_events_no_retry_log backend n text method key :
  ~ In retry_log (attempt_events backend n text method key).
Proof.
  unfold attempt_events.
  destruct (selected method key) as [k|].
  - destruct (backend k n text); destruct k; simpl; intros H;
      repeat (destruct H as [H|H]; [discriminate H|]); done.
  - intros [H|[]]. discriminate H.
Qed.

(** The whole effect of the wrapper on the world. *)
Lemma try_summarize_text_world backend text method key w :
  exists s,
    try_summarize_text backend text method key w
    = (Ok s,
       mkWorld
         (trace w ++ wrapper_events backend (backend_calls w) text method key)
         (fs w)
         (match selected method key with
          | Some OpenAI => key
          | _ => openai_api_key_attr w
          end)).
Proof.
  rewrite try_summarize_text_run. cbv zeta. unfold wrapper_events.
  destruct (startswith unavailable_prefix _).
  - rewrite summarize_text_run. eexists. f_equal.
    unfold after_attempt at 1. cbn [trace fs emit openai_api_key_attr].
    rewrite backend_calls_retry_log, after_attempt_backend_calls.
    unfold after_attempt. cbn [trace fs openai_api_key_attr].
    rewrite <- !app_assoc. f_equal.
    by destruct (selected method key) as [[]|].
  - by eexists.
Qed.

Lemma wrapper_events_adapter_calls backend n text method key :
  length (filter (fun e => is_summarize e = true)
            (wrapper_events backend n text method key))
  = if startswith unavailable_prefix
         (render (tagged_result backend n text method key))
    then 2 else 1.
Proof.
  unfold wrapper_events. destruct (startswith unavailable_prefix _).
  - change (retry_log :: ?l) with ([retry_log] ++ l).
    rewrite !filter_app, !length_app, !attempt_adapter_calls.
    reflexivity.
  - apply attempt_adapter_calls.
Qed.

Lemma wrapper_events_backend_calls backend n text method key :
  length (filter (fun e => is_backend e = true)
            (wrapper_events backend n text method key))
  = match selected method key with
    | None => 0
    | Some _ =>
        if startswith unavailable_prefix
             (render (tagged_result backend n text method key))
        then 2 else 1
    end.
Proof.
  unfold wrapper_events. destruct (startswith unavailable_prefix _).
  - change (retry_log :: ?l) with ([retry_log] ++ l).
    rewrite !filter_app, !length_app, !attempt_backend_calls.
    by destruct (selected method key).
  - rewrite attempt_backend_calls. by destruct (selected method key).
Qed.

(** X1. With a backend configured whose first call returns a summary that
    does not start with the marker of a failure, the wrapper returns that
    summary after a single attempt: one invocation of the adapter and one
    call of the backend. *)
Theorem first_success_is_returned_without_retry
  (backend : Backend) (text method : str) (key : option str) (w : World)
  (k : backend_kind) (reply : str) :
  selected method key = Some k ->
  backend k (backend_calls w) text = Returned reply ->
  startswith unavailable_prefix (success_value k reply) = false ->
  let (r, w') := try_summarize_text backend text method key w in
  r = Ok (success_value k reply)
  /\ adapter_calls w' = adapter_calls w + 1
  /\ backend_calls w' = backend_calls w + 1
  /\ ~ In retry_log (new_events w w').
Proof.
  intros Hsel Hfirst Hplain.
  rewrite try_summarize_text_run. cbv zeta.
  assert (Hr1 : tagged_result backend (backend_calls w) text method key
                = Success (success_value k reply))
    by (unfold tagged_result; by rewrite Hsel, Hfirst).
  rewrite Hr1. cbn [render]. rewrite Hplain.
  rewrite after_attempt_adapter_calls, after_attempt_backend_calls, Hsel.
  repeat split; try done.
  rewrite (new_events_app w _ (attempt_events backend (backend_calls w)
                                 text method key)); [|done].
  apply attempt_events_no_retry_log.
Qed.

Lemma first_success_is_returned_without_retry_witness :
  let (r, w') :=
    try_summarize_text echo_stub meeting (lit "openai") (Some (lit "sk-1"))
      world0 in
  r = Ok (lit "Meeting rescheduled to 3pm tomorrow.")
  /\ adapter_calls w' = 1
  /\ backend_calls w' = 1
  /\ ~ In retry_log (new_events world0 w').
Proof.
  exact (first_success_is_returned_without_retry echo_stub meeting
           (lit "openai") (Some (lit "sk-1")) world0 OpenAI
           (lit "Meeting rescheduled to 3pm tomorrow.")
           eq_refl eq_refl eq_refl).
Defined.

(** X2. A summary that a backend returns and that itself starts with
    [[Summary unavailable] is taken for a failure: the wrapper logs the
    retry, calls the backend a second time and returns the outcome of
    that second attempt in place of the first summary. *)
Theorem summary_starting_like_a_failure_is_retried
  (backend : Backend) (text method : str) (key : option str) (w : World)
  (k : backend_kind) (reply : str) :
  selected method key = Some k ->
  backend k (backend_calls w) text = Returned reply ->
  startswith unavailable_prefix (success_value k reply) = true ->
  let (r, w') := try_summarize_text backend text method key w in
  r = Ok (match backend k (S (backend_calls w)) text with
          | Returned reply2 => success_value k reply2
          | Raised _ => error_placeholder k
          end)
  /\ adapter_calls w' = adapter_calls w + 2
  /\ backend_calls w' = backend_calls w + 2
  /\ In retry_log (new_events w w').
Proof.
  intros Hsel Hfirst Hsniff.
  destruct (try_summarize_text_world backend text method key w) as [s Hw].
  rewrite Hw. unfold wrapper_events.
  assert (Hr1 : tagged_result backend (backend_calls w) text method key
                = Success (success_value k reply))
    by (unfold tagged_result; by rewrite Hsel, Hfirst).
  rewrite Hr1. cbn [render]. rewrite Hsniff.
  rewrite try_summarize_text_run in Hw. cbv zeta in Hw.
  rewrite Hr1 in Hw. cbn [render] in Hw. rewrite Hsniff in Hw.
  rewrite summarize_text_run, backend_calls_retry_log,
    after_attempt_backend_calls, Hsel in Hw.
  injection Hw as Hs _. subst s.
  split.
  { replace (backend_calls w + 1) with (S (backend_calls w)) by lia.
    unfold tagged_result. rewrite Hsel.
    destruct (backend k (S (backend_calls w)) text); by destruct k. }
  pose proof (wrapper_events_adapter_calls backend (backend_calls w) text
                method key) as Ha.
  pose proof (wrapper_events_backend_calls backend (backend_calls w) text
                method key) as Hb.
  unfold wrapper_events in Ha, Hb.
  rewrite Hr1, Hsel in Ha, Hb. cbn [render] in Ha, Hb.
  rewrite Hsniff in Ha, Hb.
  rewrite Hsel, adapter_calls_app, backend_calls_app, Ha, Hb.
  repeat split.
  erewrite new_events_app; [|done].
  apply in_or_app. right. by left.
Qed.

Lemma summary_starting_like_a_failure_is_retried_witness :
  let (r, w') :=
    try_summarize_text quoting_stub meeting (lit "transformer") None
      world0 in
  r = Ok (lit "The sender wrote a placeholder.")
  /\ adapter_calls w' = 2
  /\ backend_calls w' = 2
  /\ In retry_log (new_events world0 w').
Proof.
  exact (summary_starting_like_a_failure_is_retried quoting_stub meeting
           (lit "transformer") None world0 Transformer
           (lit "[Summary unavailable] is all the sender wrote.")
           eq_refl eq_refl eq_refl).
Defined.

(** X3. Whatever the libraries do, the wrapper returns a string after one
    or two invocations of the adapter, never more; it makes the second
    one exactly when it logs the retry; it calls a backend at most twice,
    and not at all when none is configured. *)
Theorem wrapper_makes_one_or_two_attempts
  (backend : Backend) (text method : str) (key : option str) (w : World) :
  let (r, w') := try_summarize_text backend text method key w in
  (exists s, r = Ok s)
  /\ (adapter_calls w' = adapter_calls w + 1
      /\ ~ In retry_log (new_events w w')
      \/ adapter_calls w' = adapter_calls w + 2
         /\ In retry_log (new_events w w'))
  /\ backend_calls w' <= backend_calls w + 2
  /\ (selected method key = None -> backend_calls w' = backend_calls w).
Proof.
  destruct (try_summarize_text_world backend text method key w) as [s ->].
  split; [by exists s|].
  rewrite adapter_calls_app, backend_calls_app.
  rewrite wrapper_events_adapter_calls, wrapper_events_backend_calls.
  erewrite new_events_app; [|done].
  unfold wrapper_events.
  destruct (startswith unavailable_prefix _); repeat split.
  - right. split; [done|]. apply in_or_app. right. by left.
  - destruct (selected method key); lia.
  - intros ->. lia.
  - left. split; [done|]. apply attempt_events_no_retry_log.
  - destruct (selected method key); lia.
  - intros ->. lia.
Qed.

(** X4. The wrapper touches nothing but the summarisation machinery: it
    leaves every file as it was, prints nothing and sends no IMAP command
    (all it adds to the trace are adapter invocations, library calls and
    log lines), and it changes the [openai.api_key] attribute only when
    the OpenAI backend is the one configured, to the key it was given. *)
Theorem wrapper_only_calls_and_logs
  (backend : Backend) (text method : str) (key : option str) (w : World) :
  let (r, w') := try_summarize_text backend text method key w in
  fs w' = fs w
  /\ Forall (fun e => is_call_or_log e = true) (new_events w w')
  /\ printed (new_events w w') = []
  /\ store_ids (new_events w w') = []
  /\ openai_api_key_attr w'
     = if bool_decide (method = lit "openai") && truthy_opt key
       then key else openai_api_key_attr w.
Proof.
  destruct (try_summarize_text_world backend text method key w) as [s ->].
  erewrite new_events_app; [|done]. cbn [fs openai_api_key_attr].
  assert (Hevs : Forall (fun e => is_call_or_log e = true)
                   (wrapper_events backend (backend_calls w) text method key)).
  { unfold wrapper_events. destruct (startswith unavailable_prefix _).
    - apply Forall_app. split; [apply attempt_events_calls_or_logs|].
      constructor; [done|]. apply attempt_events_calls_or_logs.
    - apply attempt_events_calls_or_logs. }
  repeat split; try done.
  - induction Hevs as [|e evs He _ IH]; [done|].
    unfold printed in *. cbn [omap list_omap]. rewrite IH. by destruct e.
  - induction Hevs as [|e evs He _ IH]; [done|].
    unfold store_ids in *. cbn [omap list_omap]. rewrite IH. by destruct e.
  - unfold selected.
    destruct (bool_decide (method = lit "openai") && truthy_opt key); [done|].
    by destruct (bool_decide (method = lit "transformer")).
Qed.

(** X5. One attempt of the adapter leaves an ERROR line in the log
    exactly when a backend is configured and its call raises, and that
    line carries the text of the exception after the backend's prefix. *)
Theorem backend_failure_is_logged_with_its_text
  (backend : Backend) (text method : str) (key : option str) (w : World)
  (msg : str) :
  In (EvLog ERROR msg)
    (new_events w (snd (summarize_text backend text method key w)))
  <-> exists k e,
        selected method key = Some k
        /\ backend k (backend_calls w) text = Raised e
        /\ msg = match k with
                 | OpenAI => lit "OpenAI API error: " ++ e
                 | Transformer => lit "Transformer summarization error: " ++ e
                 end.
Proof.
  rewrite summarize_text_run. cbn [snd].
  rewrite (new_events_app w _ (attempt_events backend (backend_calls w)
                                 text method key)); [|done].
  unfold attempt_events.
  destruct (selected method key) as [k|].
  - destruct (backend k (backend_calls w) text) as [s|e] eqn:Hb.
    + split.
      * intros [H|[H|[]]]; discriminate H.
      * intros (k' & e' & [= <-] & Hr & _). congruence.
    + split.
      * intros [H|[H|[H|[]]]]; try discriminate H.
        exists k, e. split; [done|]. split; [done|].
        destruct k; by injection H as <-.
      * intros (k' & e' & [= <-] & Hr & ->).
        rewrite Hb in Hr. injection Hr as <-.
        right. right. left. by destruct k.
  - split.
    + intros [H|[]]. discriminate H.
    + by intros (k' & e' & [=] & _).
Qed.

(** ** Extraction *)

Section KnownCharsets.

Variable decode : str -> bytes -> result str.





End KnownCharsets.



(** X7. The body is the empty string when no part can supply it: in a
    multi-part message with no plain-text candidate and no HTML part
    anywhere, and in a single-part message that is neither plain text nor
    HTML.  The payloads are then never decoded. *)
Theorem no_text_part_gives_empty_body
  (decode : str -> bytes -> result str) (msg : message) :
  (if is_multipart msg
   then Forall (fun p => plain_candidate p = false) (walk msg)
        /\ Forall (fun p => is_text_html p = false) (walk msg)
   else is_text_plain msg = false /\ is_text_html msg = false) ->
  extract_email_content decode msg = with_body decode msg (Ok []).
Proof.
  intros H. rewrite extract_email_content_body. f_equal.
  destruct (extract_body_without_text_part decode msg) as [Hmulti Hsingle].
  destruct (is_multipart msg); destruct H; auto.
Qed.

Lemma no_text_part_gives_empty_body_witness :
  extract_email_content (fun _ _ => Raise LookupError) picture_only
  = Ok (lit "a@b", lit "x", []).
Proof.
  refine (no_text_part_gives_empty_body (fun _ _ => Raise LookupError)
            picture_only _).
  split; by repeat constructor.
Defined.

(** X8. The disposition of a part counts only inside a multi-part
    message.  A plain-text part sent as an attachment supplies the body
    when it is the whole message, and is passed over, leaving the body
    empty, when it is the only part of a container. *)
Theorem attachment_is_skipped_only_inside_multipart
  (decode : str -> bytes -> result str) (h hroot : headers)
  (payload : bytes) :
  content_type h = lit "text/plain" ->
  mentions_attachment (Single h payload) = true ->
  content_type hroot <> lit "text/plain" ->
  content_type hroot <> lit "text/html" ->
  extract_email_content decode (Single h payload)
  = with_body decode (Single h payload)
      (decode (or_else (content_charset h) (lit "utf-8")) payload)
  /\ extract_email_content decode (Multipart hroot [Single h payload])
     = with_body decode (Multipart hroot [Single h payload]) (Ok []).
Proof.
  intros Hplain Hatt Hr1 Hr2. rewrite !extract_email_content_body.
  split; f_equal.
  - unfold extract_body, is_text_plain, get_content_type. cbn [is_multipart hdr].
    by rewrite Hplain, bool_decide_eq_true_2.
  - unfold extract_body. cbn [is_multipart walk flat_map app plain_loop].
    unfold is_text_plain, get_content_type. cbn [hdr].
    rewrite (bool_decide_eq_false_2 _ Hr1), Hplain, bool_decide_eq_true_2
      by done.
    rewrite Hatt. cbn [andb negb html_loop].
    unfold is_text_html, get_content_type. cbn [hdr].
    rewrite (bool_decide_eq_false_2 _ Hr2), Hplain. by vm_compute.
Qed.

Lemma attachment_is_skipped_only_inside_multipart_witness :
  extract_email_content python_decode (Single notes_headers (blit "raw notes"))
  = Ok (lit "a@b", lit "x", lit "raw notes")
  /\ extract_email_content python_decode
       (Multipart mixed_headers [Single notes_headers (blit "raw notes")])
     = Ok (lit "a@b", lit "x", []).
Proof.
  exact (attachment_is_skipped_only_inside_multipart python_decode
           notes_headers mixed_headers (blit "raw notes") eq_refl eq_refl
           ltac:(discriminate) ltac:(discriminate)).
Defined.

(** X20. The order of preference the code follows in a multi-part
    message, with the test it applies: a candidate is a part that is
    plain text and whose Content-Disposition text does not hold the
    lower-case word [attachment].  (1) The body is the decoded text of
    the first candidate in document order; (2) when there is no
    candidate, it is the decoded text of the first HTML part; (3) when
    exactly one part is a candidate, the body is that part's decoded text
    wherever it stands; (4) a part's text is its payload decoded with its
    declared character set, [utf-8] when none is declared. *)
Theorem multipart_body_preference
  (decode : str -> bytes -> result str) (msg : message) :
  is_multipart msg = true ->
  (forall before part after,
      walk msg = before ++ part :: after ->
      Forall (fun p => plain_candidate p = false) before ->
      plain_candidate part = true ->
      extract_email_content decode msg
      = with_body decode msg (decode_payload decode part))
  /\ (forall before part after,
      Forall (fun p => plain_candidate p = false) (walk msg) ->
      walk msg = before ++ part :: after ->
      Forall (fun p => is_text_html p = false) before ->
      is_text_html part = true ->
      extract_email_content decode msg
      = with_body decode msg (decode_payload decode part))
  /\ (forall part,
      filter (fun p => plain_candidate p = true) (walk msg) = [part] ->
      extract_email_content decode msg
      = with_body decode msg (decode_payload decode part))
  /\ (forall h payload,
      decode_payload decode (Single h payload)
      = decode (or_else (content_charset h) (lit "utf-8")) payload).
Proof.
  intros Hmulti.
  assert (Hfirst : forall before part after,
      walk msg = before ++ part :: after ->
      Forall (fun p => plain_candidate p = false) before ->
      plain_candidate part = true ->
      extract_email_content decode msg
      = with_body decode msg (decode_payload decode part)).
  { intros before part after Hwalk Hbefore Hpart.
    rewrite extract_email_content_body. f_equal.
    unfold extract_body. rewrite Hmulti, Hwalk.
    by rewrite (plain_loop_first decode before part after). }
  repeat split.
  - exact Hfirst.
  - intros before part after Hnone Hwalk Hbefore Hpart.
    rewrite extract_email_content_body. f_equal.
    unfold extract_body. rewrite Hmulti.
    rewrite (plain_loop_exhausted decode _ Hnone), Hwalk.
    by rewrite (html_loop_first decode before part after).
  - intros part Hone.
    destruct (only_candidate_split _ _ Hone)
      as (Hpart & before & after & Hwalk & Hbefore).
    by apply (Hfirst before part after).
Qed.

Lemma multipart_body_preference_witness :
  extract_email_content python_decode report
  = Ok (lit "Ana <ana@example.org>", lit "Quarterly report",
        lit "See the caf" ++ [0xE9%N] ++ lit " figures.").
Proof.
  refine (proj1 (multipart_body_preference python_decode report eq_refl)
            (Multipart (hdr report) report_parts :: firstn 3 report_parts)
            (part (lit "text/plain") None (Some (lit "iso-8859-1"))
               (blit "See the caf" ++ [xe9]%byte ++ blit " figures."))
            (skipn 4 report_parts) eq_refl _ eq_refl).
  repeat constructor.
Defined.

(** ** The output sink, record after record *)



(** ** The loop, message after message *)

Lemma calls_and_logs_are_silent evs :
  Forall (fun e => is_call_or_log e = true) evs ->
  printed evs = [] /\ store_ids evs = [].
Proof.
  unfold printed, store_ids.
  induction 1 as [|e evs He _ [IH1 IH2]]; [done|].
  cbn [omap list_omap]. rewrite IH1, IH2. by destruct e.
Qed.

Lemma no_store_store_ids evs : no_store evs -> store_ids evs = [].
Proof.
  unfold no_store, store_ids.
  induction 1 as [|e evs He _ IH]; [done|].
  cbn [omap list_omap]. rewrite IH. by destruct e.
Qed.

Lemma wrapper_events_calls_or_logs backend n text method key :
  Forall (fun e => is_call_or_log e = true)
    (wrapper_events backend n text method key).
Proof.
  unfold wrapper_events. destruct (startswith unavailable_prefix _).
  - apply Forall_app. split; [apply attempt_events_calls_or_logs|].
    constructor; [done|]. apply attempt_events_calls_or_logs.
  - apply attempt_events_calls_or_logs.
Qed.

Lemma wrapper_events_at_most_two_calls backend n text method key :
  backend_events (wrapper_events backend n text method key) <= 2.
Proof.
  unfold backend_events. rewrite wrapper_events_backend_calls.
  destruct (selected method key); [|lia].
  destruct (startswith unavailable_prefix _); lia.
Qed.

Lemma file_behind_console_refl save_file w w' r :
  fs w' = fs w -> file_behind_console save_file w w' [] r.
Proof.
  intros H. unfold file_behind_console.
  destruct save_file as [[|c path]|]; try done.
  rewrite H. split; [|done]. exists []. cbn [map concat].
  rewrite app_nil_r. split; [done|by left].
Qed.

Lemma file_behind_console_start save_file w0 w w' blocks r :
  fs w = fs w0 ->
  file_behind_console save_file w w' blocks r ->
  file_behind_console save_file w0 w' blocks r.
Proof.
  unfold file_behind_console. intros H.
  destruct save_file as [[|c path]|]; by rewrite H.
Qed.

Lemma file_behind_console_end save_file w w1 w' blocks r :
  fs w' = fs w1 ->
  file_behind_console save_file w w1 blocks (Ok tt) ->
  file_behind_console save_file w w' blocks r.
Proof.
  unfold file_behind_console. intros H.
  destruct save_file as [[|c path]|]; rewrite H; try done.
  intros [(written & Hfile & [->|[_ Hne]]) Hother]; [|done].
  split; [|done]. exists blocks. split; [done|by left].
Qed.

Lemma file_behind_console_trans save_file w1 w2 w3 blocks1 blocks2 r :
  file_behind_console save_file w1 w2 blocks1 (Ok tt) ->
  file_behind_console save_file w2 w3 blocks2 r ->
  file_behind_console save_file w1 w3 (blocks1 ++ blocks2) r.
Proof.
  unfold file_behind_console.
  destruct save_file as [[|c path]|]; try congruence.
  intros [(written1 & H1 & [->|[_ Hne]]) F1]; [|done].
  intros [(written2 & H2 & Hcase) F2]. split.
  - exists (blocks1 ++ written2). split.
    + rewrite H2, H1, map_app, concat_app. by rewrite app_assoc.
    + destruct Hcase as [->|[[last ->] Hr]]; [by left|].
      right. split; [|done]. exists last. by rewrite app_assoc.
  - intros other Hother. by rewrite F2, F1.
Qed.

Section LoopEffects.

Variable backend : Backend.
Variable decode : str -> bytes -> result str.
Variable host : Host.
Variable mail : IMAP4.
Variable method : str.
Variable openai_api_key : option str.
Variable mark_read : bool.
Variable save_file : option str.

(** Everything one turn of the loop does. *)
Lemma main_iteration_effect eid msg w :
  exists evs,
    let (r, w') :=
      main_iteration backend decode host mail method openai_api_key
        mark_read save_file (eid, msg) w in
    trace w' = trace w ++ evs
    /\ (forall e, extract_email_content decode msg = Raise e ->
                  r = Raise e /\ w' = w)
    /\ (r = Ok tt ->
        store_ids evs
        = (if mark_read && has_text decode (eid, msg) then [eid] else [])
        /\ length (printed evs)
           = (if has_text decode (eid, msg) then 1 else 0))
    /\ backend_events evs <= (if has_text decode (eid, msg) then 2 else 0)
    /\ file_behind_console save_file w w' (printed evs) r.
Proof.
  unfold has_text. cbn [snd].
  destruct (extract_email_content decode msg) as [[[sender subject] body]|e]
    eqn:Hex.
  - destruct (forallb isspace body) eqn:Hblank; cbn [negb].
    + rewrite (main_iteration_blank backend decode host mail method
                 openai_api_key save_file mark_read eid msg w _ _ _ Hex
                 Hblank).
      exists [EvLog WARNING (no_body_warning sender subject)].
      rewrite andb_false_r.
      repeat split; try done.
      by apply file_behind_console_refl.
    + destruct (main_iteration_text backend decode host mail method
                  openai_api_key save_file mark_read eid msg w _ _ _ Hex
                  Hblank) as (summary & w1 & Htry & ->).
      destruct (try_summarize_text_world backend body method openai_api_key
                  w) as [summary' Htry'].
      rewrite Htry in Htry'. injection Htry' as <- ->.
      pose proof (wrapper_events_calls_or_logs backend (backend_calls w)
                    body method openai_api_key) as Hsilent.
      apply calls_and_logs_are_silent in Hsilent as [Hp Hs].
      pose proof (wrapper_events_at_most_two_calls backend (backend_calls w)
                    body method openai_api_key) as Hcalls.
      set (wev := wrapper_events backend (backend_calls w) body method
                    openai_api_key) in *.
      set (w1 := mkWorld (trace w ++ wev) (fs w) _) in *.
      assert (Hfs1 : fs w1 = fs w) by done.
      assert (Ht1 : trace w1 = trace w ++ wev) by done.
      clearbody w1.
      destruct (output_summary_effect host sender subject summary save_file
                  w1) as [evs2 H2].
      unfold bind. rewrite andb_true_r.
      destruct (output_summary host sender subject summary save_file w1)
        as [[[]|e] w2];
        destruct H2 as (Ht2 & Hns2 & Hb2 & Hok2 & Hraise2 & Hfile2).
      * specialize (Hok2 eq_refl).
        apply no_store_store_ids in Hns2.
        apply (file_behind_console_start _ w) in Hfile2; [|done].
        destruct mark_read.
        -- rewrite mark_as_read_run.
           exists (wev ++ evs2 ++ [EvStore eid (lit "+FLAGS") (lit "\Seen")]).
           cbn [trace emit]. rewrite Ht2, Ht1.
           split; [by rewrite <- !app_assoc|]. split; [done|].
           unfold store_ids, printed, backend_events in *.
           rewrite !omap_app, !filter_app, !length_app, Hs, Hp, Hns2, Hok2,
             Hb2.
           split; [done|]. split; [simpl; lia|].
           rewrite Hok2 in Hfile2.
           exact (file_behind_console_end _ _ w2 _ _ _ eq_refl Hfile2).
        -- unfold ret. exists (wev ++ evs2). rewrite Ht2, Ht1.
           split; [by rewrite <- !app_assoc|]. split; [done|].
           unfold store_ids, printed, backend_events in *.
           rewrite !omap_app, !filter_app, !length_app, Hs, Hp, Hns2, Hok2,
             Hb2.
           split; [done|]. split; [simpl; lia|].
           rewrite Hok2 in Hfile2. exact Hfile2.
      * exists (wev ++ evs2). rewrite Ht2, Ht1.
        split; [by rewrite <- !app_assoc|]. split; [done|].
        split; [done|].
        apply (file_behind_console_start _ w) in Hfile2; [|done].
        unfold store_ids, printed, backend_events in *.
        rewrite !omap_app, !filter_app, !length_app, Hp, Hb2.
        split; [simpl; lia|exact Hfile2].
  - exists []. unfold main_iteration, bind, lift. rewrite Hex.
    rewrite app_nil_r.
    split; [done|]. split; [by intros e' [= <-]|].
    split; [done|]. split; [done|].
    by apply file_behind_console_refl.
Qed.

Lemma filter_has_text_cons email emails :
  filter (fun em => has_text decode em = true) (email :: emails)
  = if has_text decode email
    then email :: filter (fun em => has_text decode em = true) emails
    else filter (fun em => has_text decode em = true) emails.
Proof.
  rewrite filter_cons. destruct (has_text decode email) eqn:H.
  - by rewrite decide_True.
  - by rewrite decide_False.
Qed.

(** Everything a run of the loop does. *)
Lemma main_loop_effect emails w :
  exists evs,
    let (r, w') :=
      main_loop backend decode host mail method openai_api_key mark_read
        save_file emails w in
    trace w' = trace w ++ evs
    /\ (r = Ok tt ->
        store_ids evs
        = (if mark_read
           then map fst (filter (fun em => has_text decode em = true)
                           emails)
           else [])
        /\ length (printed evs)
           = length (filter (fun em => has_text decode em = true) emails))
    /\ backend_events evs
       <= 2 * length (filter (fun em => has_text decode em = true) emails)
    /\ file_behind_console save_file w w' (printed evs) r.
Proof.
  revert w. induction emails as [|[eid msg] rest IH]; intros w.
  - exists []. cbn [main_loop]. unfold ret. rewrite app_nil_r.
    split; [done|]. split; [by destruct mark_read|].
    split; [done|]. by apply file_behind_console_refl.
  - destruct (main_iteration_effect eid msg w) as [evs1 H1].
    cbn [main_loop]. unfold bind at 1.
    destruct (main_iteration _ _ _ _ _ _ _ _ (eid, msg) w) as [[[]|e] w1].
    + destruct H1 as (Ht1 & _ & Hok1 & Hb1 & Hf1).
      destruct (Hok1 eq_refl) as [Hs1 Hp1].
      destruct (IH w1) as [evs2 H2].
      destruct (main_loop _ _ _ _ _ _ _ _ rest w1) as [r w2].
      destruct H2 as (Ht2 & Hok2 & Hb2 & Hf2).
      exists (evs1 ++ evs2).
      split; [by rewrite Ht2, Ht1, app_assoc|].
      unfold store_ids, printed, backend_events in *.
      rewrite !omap_app, filter_app, !length_app, filter_has_text_cons.
      split; [|split].
      * intros Hr. destruct (Hok2 Hr) as [Hs2 Hp2].
        rewrite Hs1, Hs2, Hp1, Hp2.
        destruct mark_read, (has_text decode (eid, msg)); by repeat split.
      * destruct (has_text decode (eid, msg)); cbn [length]; lia.
      * by apply (file_behind_console_trans save_file w w1 w2).
    + destruct H1 as (Ht1 & _ & _ & Hb1 & Hf1).
      exists evs1. split; [done|].
      rewrite filter_has_text_cons.
      split; [done|]. split; [|done].
      destruct (has_text decode (eid, msg)); cbn [length]; lia.
Qed.

Lemma main_loop_returns emails w :
  Forall (extracts decode) emails ->
  obliging host save_file ->
  store_returns mail ->
  fst (main_loop backend decode host mail method openai_api_key mark_read
         save_file emails w) = Ok tt.
Proof.
  intros Hall Hhost Hstore. revert w.
  induction Hall as [|[eid msg] rest [[[sender subject] body] Hex] _ IH];
    intros w; [done|].
  cbn [snd] in Hex. cbn [main_loop]. unfold bind at 1.
  destruct (forallb isspace body) eqn:Hblank.
  - rewrite (main_iteration_blank backend decode host mail method
               openai_api_key save_file mark_read eid msg w _ _ _ Hex
               Hblank).
    apply IH.
  - destruct (main_iteration_text backend decode host mail method
                openai_api_key save_file mark_read eid msg w _ _ _ Hex
                Hblank) as (summary & w1 & _ & ->).
    unfold bind at 1.
    pose proof (output_summary_returns host sender subject summary
                  save_file w1 Hhost) as Hout.
    destruct (output_summary host sender subject summary save_file w1)
      as [r1 w2].
    cbn [fst] in Hout. subst r1.
    destruct mark_read.
    + rewrite mark_as_read_run, Hstore. apply IH.
    + unfold ret. apply IH.
Qed.

Lemma main_loop_app before after w :
  main_loop backend decode host mail method openai_api_key mark_read
    save_file (before ++ after) w
  = match main_loop backend decode host mail method openai_api_key
            mark_read save_file before w with
    | (Ok _, w1) =>
        main_loop backend decode host mail method openai_api_key mark_read
          save_file after w1
    | (Raise e, w1) => (Raise e, w1)
    end.
Proof.
  revert w. induction before as [|email before IH]; intros w; [done|].
  cbn [app main_loop]. unfold bind.
  destruct (main_iteration _ _ _ _ _ _ _ _ email w) as [[[]|e] w1]; [|done].
  apply IH.
Qed.

End LoopEffects.

(** X10. A run of the loop stops at the first message whose extraction
    raises: once the messages before it have been processed, the error
    leaves the loop, and neither that message nor any later one adds
    anything to the world. *)
Theorem loop_stops_at_first_extraction_error
  (backend : Backend) (decode : str -> bytes -> result str)
  (host : Host) (mail : IMAP4)
  (method : str) (key : option str) (mark_read : bool)
  (save_file : option str) (before after : list (bytes * message))
  (eid : bytes) (msg : message) (e : exn) (w : World) :
  fst (main_loop backend decode host mail method key mark_read save_file
         before w) = Ok tt ->
  extract_email_content decode msg = Raise e ->
  main_loop backend decode host mail method key mark_read save_file
    (before ++ (eid, msg) :: after) w
  = (Raise e,
     snd (main_loop backend decode host mail method key mark_read save_file
            before w)).
Proof.
  intros Hbefore Hex. rewrite main_loop_app.
  destruct (main_loop _ _ _ _ _ _ _ _ before w) as [r w1].
  cbn [fst] in Hbefore. subst r.
  cbn [snd main_loop]. unfold bind at 1.
  destruct (main_iteration_effect backend decode host mail method key
              mark_read save_file eid msg w1) as [evs1 H1].
  destruct (main_iteration _ _ _ _ _ _ _ _ (eid, msg) w1) as [r1 w2].
  destruct H1 as (_ & Hraise & _).
  by destruct (Hraise e Hex) as [-> ->].
Qed.

Lemma loop_stops_at_first_extraction_error_witness :
  main_loop echo_stub python_decode posix_host four_messages
    (lit "transformer") None true None inbox_with_bad_subject world0
  = (Raise LookupError,
     mkWorld [EvLog WARNING (no_body_warning (lit "a@b") (lit "x"))] ∅ None).
Proof.
  exact (loop_stops_at_first_extraction_error echo_stub python_decode
           posix_host four_messages (lit "transformer") None true None
           [(blit "1", blank_message)] [(blit "3", report)] (blit "2")
           unknown_charset_subject LookupError world0 eq_refl eq_refl).
Defined.

(** X11. A run of the loop that ends normally has printed exactly one
    record for each fetched message whose body has text and, with the
    mark-as-read flag on, has sent the mark-as-read command for exactly
    those messages, once each and in the order fetched; with the flag off
    it has sent none.  The run does end normally when the extraction of
    every fetched message returns, the host takes every text at the
    console and at the destination, and the server answers every STORE
    command. *)
Theorem every_message_with_text_is_emitted_and_marked_once
  (backend : Backend) (decode : str -> bytes -> result str)
  (host : Host) (mail : IMAP4)
  (method : str) (key : option str) (mark_read : bool)
  (save_file : option str) (emails : list (bytes * message)) (w : World) :
  let (r, w') :=
    main_loop backend decode host mail method key mark_read save_file
      emails w in
  (r = Ok tt ->
   store_ids (new_events w w')
   = (if mark_read
      then map fst (filter (fun em => has_text decode em = true) emails)
      else [])
   /\ length (printed (new_events w w'))
      = length (filter (fun em => has_text decode em = true) emails))
  /\ (Forall (extracts decode) emails ->
      obliging host save_file ->
      store_returns mail ->
      r = Ok tt).
Proof.
  destruct (main_loop_effect backend decode host mail method key mark_read
              save_file emails w) as [evs H].
  pose proof (main_loop_returns backend decode host mail method key
                mark_read save_file emails w) as Hret.
  destruct (main_loop _ _ _ _ _ _ _ _ emails w) as [r w'].
  destruct H as (Ht & Hok & _). cbn [fst] in Hret.
  rewrite (new_events_app _ _ _ Ht). split; [done|]. exact Hret.
Qed.

Lemma every_message_with_text_is_emitted_and_marked_once_witness :
  let (r, w') :=
    main_loop echo_stub python_decode unlimited_host four_messages
      (lit "transformer") None true None inbox world0 in
  r = Ok tt
  /\ store_ids (new_events world0 w') = [blit "2"]
  /\ length (printed (new_events world0 w')) = 1.
Proof.
  pose proof (every_message_with_text_is_emitted_and_marked_once echo_stub
                python_decode unlimited_host four_messages
                (lit "transformer") None true None inbox world0) as H.
  destruct (main_loop echo_stub python_decode unlimited_host four_messages
              (lit "transformer") None true None inbox world0) as [r w'].
  destruct H as [Hcount Hret].
  assert (Hr : r = Ok tt).
  { apply Hret; [repeat constructor; by eexists|done|done]. }
  split; [exact Hr|]. exact (Hcount Hr).
Defined.

(** X12. A run of the loop calls a summarisation backend at most twice
    for each fetched message whose body has text, and never for the
    others, whatever the backend answers and whether or not the run ends
    normally. *)
Theorem loop_calls_backend_at_most_twice_per_message
  (backend : Backend) (decode : str -> bytes -> result str)
  (host : Host) (mail : IMAP4)
  (method : str) (key : option str) (mark_read : bool)
  (save_file : option str) (emails : list (bytes * message)) (w : World) :
  backend_calls
    (snd (main_loop backend decode host mail method key mark_read save_file
            emails w))
  <= backend_calls w
     + 2 * length (filter (fun em => has_text decode em = true) emails).
Proof.
  destruct (main_loop_effect backend decode host mail method key mark_read
              save_file emails w) as [evs H].
  destruct (main_loop _ _ _ _ _ _ _ _ emails w) as [r w'].
  destruct H as (Ht & _ & Hb & _). cbn [snd].
  unfold backend_calls, backend_events in *.
  rewrite Ht, filter_app, length_app. lia.
Qed.


(** Two runs that an exception cuts short.  With the destination [/] the
    record of the message with text is on the console and in no file, and
    no command has been sent; on a server that has dropped the
    connection the record is printed and the command sent, and the run
    ends with the server's error. *)
Example runs_cut_short :
  (let (r, w') :=
     main_loop echo_stub python_decode posix_host four_messages
       (lit "transformer") None true (Some (lit "/")) inbox world0 in
   r = Raise (Exception_ (lit "[Errno 21] Is a directory: '/'"))
   /\ length (printed (new_events world0 w')) = 1
   /\ store_ids (new_events world0 w') = []
   /\ fs w' = fs world0)
  /\ (let (r, w') :=
        main_loop echo_stub python_decode posix_host refusing
          (lit "transformer") None true None (inbox ++ inbox) world0 in
      r = Raise (Exception_ (lit "connection lost"))
      /\ length (printed (new_events world0 w')) = 1
      /\ store_ids (new_events world0 w') = [blit "2"]).
Proof. by vm_compute. Qed.

(** ** Fetching *)

Lemma slice_from_minus_zero {A} (l : list A) : slice_from_minus 0 l = l.
Proof.
  unfold slice_from_minus. cbn [Z.opp Z.ltb Z.compare].
  rewrite Z.min_l by lia. done.
Qed.

Lemma slice_from_minus_all {A} (l : list A) (m : nat) :
  length l <= m -> slice_from_minus (Z.of_nat m) l = l.
Proof.
  intros Hm. unfold slice_from_minus.
  destruct (- Z.of_nat m <? 0)%Z eqn:Hneg.
  - rewrite Z.max_r by lia. done.
  - apply Z.ltb_ge in Hneg. rewrite Z.min_l by lia.
    replace (Z.to_nat (- Z.of_nat m)) with 0 by lia. done.
Qed.

Lemma slice_from_minus_last {A} (n : Z) (l : list A) :
  (0 < n)%Z ->
  slice_from_minus n l = skipn (length l - Z.to_nat n) l
  /\ length (slice_from_minus n l) <= Z.to_nat n.
Proof.
  intros Hn. unfold slice_from_minus.
  replace (- n <? 0)%Z with true by (symmetry; apply Z.ltb_lt; lia).
  replace (Z.to_nat (Z.max (- n + Z.of_nat (length l)) 0))
    with (length l - Z.to_nat n) by lia.
  split; [done|]. rewrite length_drop. lia.
Qed.

Lemma fetch_loop_answers mail ids :
  Forall (fetch_answers mail) ids ->
  exists fetched,
    fetch_loop mail ids = Ok fetched
    /\ map fst fetched = filter (fun eid => fetch_ok mail eid = true) ids
    /\ Forall (fun p => fetch mail (fst p) (lit "(RFC822)")
                        = Ok (lit "OK", Ok (snd p))) fetched.
Proof.
  induction 1 as [|eid ids (status & msg_data & Hf & Hraw) _ IH].
  - by exists [].
  - destruct IH as (fetched & Hloop & Hids & Hall).
    assert (Hok : fetch_ok mail eid = bool_decide (status = lit "OK"))
      by (unfold fetch_ok; by rewrite Hf).
    cbn [fetch_loop]. rewrite Hf, filter_cons. cbn [rbind].
    destruct (bool_decide (status = lit "OK")) eqn:Hst.
    + rewrite decide_True by done.
      apply bool_decide_eq_true_1 in Hst. destruct (Hraw Hst) as [raw ->].
      rewrite Hloop. cbn [rbind].
      exists ((eid, raw) :: fetched). split; [done|].
      split; [cbn [map fst]; by rewrite Hids|].
      constructor; [cbn [fst snd]; by rewrite Hf, Hst|done].
    + rewrite decide_False by (rewrite Hok; done). by exists fetched.
Qed.

Lemma fetch_emails_after_search mail n unread_only w blob others :
  select mail (lit "inbox") = Ok tt ->
  search mail (criterion unread_only) = Ok (lit "OK", Some blob :: others) ->
  fetch_emails mail n unread_only w
  = (fetch_loop mail (slice_from_minus n (bytes_split blob)), w).
Proof.
  intros Hsel Hsearch. unfold fetch_emails, bind, lift. rewrite Hsel.
  replace (if unread_only then search mail (lit "UNSEEN")
           else search mail (lit "ALL"))
    with (search mail (criterion unread_only)) by (by destruct unread_only).
  rewrite Hsearch. cbn [negb first_split].
  by destruct (fetch_loop mail _).
Qed.

(** X14. When the server answers the search with a status other than OK,
    [fetch_emails] logs one error and returns the empty list: it does not
    look at the data of the answer and fetches nothing. *)
Theorem refused_search_yields_no_messages
  (mail : IMAP4) (n : Z) (unread_only : bool) (w : World)
  (status : str) (messages : list (option bytes)) :
  select mail (lit "inbox") = Ok tt ->
  search mail (criterion unread_only) = Ok (status, messages) ->
  status <> lit "OK" ->
  fetch_emails mail n unread_only w
  = (Ok [], emit (EvLog ERROR (lit "Failed to fetch emails.")) w).
Proof.
  intros Hsel Hsearch Hstatus. unfold fetch_emails, bind, lift.
  rewrite Hsel.
  replace (if unread_only then search mail (lit "UNSEEN")
           else search mail (lit "ALL"))
    with (search mail (criterion unread_only)) by (by destruct unread_only).
  rewrite Hsearch. by rewrite bool_decide_eq_false_2.
Qed.

Lemma refused_search_yields_no_messages_witness :
  fetch_emails refusing 5 true world0
  = (Ok [], emit (EvLog ERROR (lit "Failed to fetch emails.")) world0).
Proof.
  exact (refused_search_yields_no_messages refusing 5 true world0 (lit "NO")
           [] eq_refl eq_refl ltac:(discriminate)).
Defined.

(** X15. After a search answered OK, and when every FETCH of the slice
    [email_ids[-n:]] returns (with its message when its status is OK),
    [fetch_emails] returns, without logging anything, the messages of that
    slice whose FETCH was answered OK, in the order of the search answer,
    each paired with its own identifier; an identifier whose FETCH has
    another status is dropped silently. *)
Theorem fetch_emails_keeps_the_answered_messages_of_the_slice
  (mail : IMAP4) (n : Z) (unread_only : bool) (w : World)
  (blob : bytes) (others : list (option bytes)) :
  select mail (lit "inbox") = Ok tt ->
  search mail (criterion unread_only) = Ok (lit "OK", Some blob :: others) ->
  Forall (fetch_answers mail) (slice_from_minus n (bytes_split blob)) ->
  exists fetched,
    fetch_emails mail n unread_only w = (Ok fetched, w)
    /\ map fst fetched
       = filter (fun eid => fetch_ok mail eid = true)
           (slice_from_minus n (bytes_split blob))
    /\ Forall (fun p => fetch mail (fst p) (lit "(RFC822)")
                        = Ok (lit "OK", Ok (snd p))) fetched.
Proof.
  intros Hsel Hsearch Hall.
  destruct (fetch_loop_answers mail _ Hall) as (fetched & Hloop & Hids & Hf).
  exists fetched.
  by rewrite (fetch_emails_after_search mail n unread_only w blob others
                Hsel Hsearch), Hloop.
Qed.

Lemma fetch_emails_keeps_the_answered_messages_of_the_slice_witness :
  exists fetched,
    fetch_emails four_messages 2 true world0 = (Ok fetched, world0)
    /\ map fst fetched
       = filter (fun eid => fetch_ok four_messages eid = true)
           (slice_from_minus 2 (bytes_split (blit "1 2  3 4")))
    /\ Forall (fun p => fetch four_messages (fst p) (lit "(RFC822)")
                        = Ok (lit "OK", Ok (snd p))) fetched.
Proof.
  refine (fetch_emails_keeps_the_answered_messages_of_the_slice four_messages
            2 true world0 (blit "1 2  3 4") [] eq_refl eq_refl _).
  repeat constructor.
  - eexists _, _. split; [reflexivity|]. intros H. discriminate H.
  - eexists _, _. split; [reflexivity|]. intros _. by eexists.
Defined.

(** X16. With a count [n] of at least one, [fetch_emails] looks only at
    the last [n] identifiers of the search answer (at all of them when
    there are fewer) and so returns at most [n] messages. *)
Theorem fetch_emails_returns_at_most_n_of_the_last_n
  (mail : IMAP4) (n : Z) (unread_only : bool) (w : World)
  (blob : bytes) (others : list (option bytes))
  (fetched : list (bytes * bytes)) (w' : World) :
  (0 < n)%Z ->
  select mail (lit "inbox") = Ok tt ->
  search mail (criterion unread_only) = Ok (lit "OK", Some blob :: others) ->
  fetch_emails mail n unread_only w = (Ok fetched, w') ->
  length fetched <= Z.to_nat n
  /\ forall eid raw,
       In (eid, raw) fetched ->
       In eid (skipn (length (bytes_split blob) - Z.to_nat n)
                 (bytes_split blob)).
Proof.
  intros Hn Hsel Hsearch.
  rewrite (fetch_emails_after_search mail n unread_only w blob others
             Hsel Hsearch).
  destruct (slice_from_minus_last n (bytes_split blob) Hn) as [Hslice Hlen].
  rewrite <- Hslice. clear Hslice.
  revert Hlen. generalize (Z.to_nat n) as bound.
  generalize (slice_from_minus n (bytes_split blob)) as ids.
  intros ids. revert fetched.
  induction ids as [|eid ids IH]; intros fetched bound Hlen.
  - intros [= <- _]. split; [simpl; lia|]. intros ? ? [].
  - cbn [fetch_loop length] in *.
    destruct (fetch mail eid (lit "(RFC822)")) as [[status msg_data]|e];
      [|discriminate]. cbn [rbind].
    destruct (bool_decide (status = lit "OK")).
    + destruct msg_data as [raw|e]; [|discriminate]. cbn [rbind].
      destruct (fetch_loop mail ids) as [tail|e] eqn:Hloop; [|discriminate].
      cbn [rbind]. intros [= <- <-].
      destruct (IH tail (bound - 1)) as [IHlen IHin]; [lia|done|].
      split; [cbn [length]; lia|].
      intros eid' raw' [[= <- <-]|Hin]; [by left|].
      right. by apply (IHin eid' raw').
    + intros Hrest.
      destruct (IH fetched (bound - 1)) as [IHlen IHin]; [lia|done|].
      split; [lia|]. intros eid' raw' Hin. right. by apply (IHin eid' raw').
Qed.

Lemma fetch_emails_returns_at_most_n_of_the_last_n_witness :
  length [(blit "4", blit "Subject: 4")] <= Z.to_nat 2
  /\ forall eid raw,
       In (eid, raw) [(blit "4", blit "Subject: 4")] ->
       In eid (skipn (length (bytes_split (blit "1 2  3 4")) - Z.to_nat 2)
                 (bytes_split (blit "1 2  3 4"))).
Proof.
  exact (fetch_emails_returns_at_most_n_of_the_last_n four_messages 2 true
           world0 (blit "1 2  3 4") [] [(blit "4", blit "Subject: 4")] world0
           eq_refl eq_refl eq_refl eq_refl).
Defined.

(** X17. A count of zero does not mean no message: [email_ids[-0:]] is
    the whole list, so [fetch_emails] with [n = 0] does what it does with
    any count that covers every identifier of the search answer. *)
Theorem zero_count_fetches_every_message
  (mail : IMAP4) (m : nat) (unread_only : bool) (w : World)
  (blob : bytes) (others : list (option bytes)) :
  select mail (lit "inbox") = Ok tt ->
  search mail (criterion unread_only) = Ok (lit "OK", Some blob :: others) ->
  length (bytes_split blob) <= m ->
  fetch_emails mail 0 unread_only w
  = fetch_emails mail (Z.of_nat m) unread_only w
  /\ fetch_emails mail 0 unread_only w
     = (fetch_loop mail (bytes_split blob), w).
Proof.
  intros Hsel Hsearch Hm.
  rewrite !(fetch_emails_after_search mail _ unread_only w blob others
              Hsel Hsearch).
  by rewrite slice_from_minus_zero, slice_from_minus_all.
Qed.

Lemma zero_count_fetches_every_message_witness :
  fetch_emails four_messages 0 false world0
  = fetch_emails four_messages 4 false world0
  /\ fetch_emails four_messages 0 false world0
     = (Ok [ (blit "1", blit "Subject: 1"); (blit "2", blit "Subject: 2");
             (blit "4", blit "Subject: 4") ], world0).
Proof.
  exact (zero_count_fetches_every_message four_messages 4 false world0
           (blit "1 2  3 4") [] eq_refl eq_refl ltac:(vm_compute; lia)).
Defined.

Example slice_from_minus_examples :
  map (fun n => slice_from_minus n [1; 2; 3; 4])
    [0; 1; 2; 4; 5; -1; -3; -4; -9]%Z
  = [ [1; 2; 3; 4]; [4]; [3; 4]; [1; 2; 3; 4]; [1; 2; 3; 4];
      [2; 3; 4]; [4]; []; [] ].
Proof. reflexivity. Qed.

Example bytes_split_examples :
  bytes_split ([x20]%byte ++ blit "1 2  3" ++ [x09]%byte ++ blit "4"
               ++ [x0a]%byte)
  = [blit "1"; blit "2"; blit "3"; blit "4"]
  /\ bytes_split [] = []
  /\ bytes_split (blit "  ") = []
  /\ bytes_split (blit "a" ++ [x0b]%byte ++ blit "b" ++ [x0c]%byte
                  ++ blit "c" ++ [x1c]%byte ++ blit "d" ++ [x85]%byte
                  ++ blit "e")
     = [blit "a"; blit "b";
        blit "c" ++ [x1c]%byte ++ blit "d" ++ [x85]%byte ++ blit "e"].
Proof. by repeat split. Qed.

(** ** From the fetch to the end of [main] *)

Lemma fetch_loop_members mail ids fetched :
  fetch_loop mail ids = Ok fetched ->
  forall eid raw,
    In (eid, raw) fetched -> In eid ids /\ fetch_ok mail eid = true.
Proof.
  revert fetched. induction ids as [|eid0 ids IH]; intros fetched.
  - intros [= <-] ? ? [].
  - cbn [fetch_loop]. unfold fetch_ok.
    destruct (fetch mail eid0 (lit "(RFC822)")) as [[status msg_data]|e]
      eqn:Hf; [|discriminate]. cbn [rbind].
    destruct (bool_decide (status = lit "OK")) eqn:Hst.
    + destruct msg_data as [raw0|e]; [|discriminate]. cbn [rbind].
      destruct (fetch_loop mail ids) as [tail|e]; [|discriminate].
      cbn [rbind]. intros [= <-] eid raw [[= <- <-]|Hin].
      * split; [by left|]. by rewrite Hf.
      * destruct (IH tail eq_refl eid raw Hin). split; [by right|done].
    + intros Hrest eid raw Hin.
      destruct (IH fetched Hrest eid raw Hin). split; [by right|done].
Qed.

Lemma new_events_same w : new_events w w = [].
Proof. unfold new_events. apply drop_all. Qed.

Lemma fetch_loop_ignores_logout mail lo ids :
  fetch_loop
    (mkIMAP4 (select mail) (search mail) (fetch mail) (store mail) lo) ids
  = fetch_loop mail ids.
Proof.
  induction ids as [|eid ids IH]; [done|]. cbn [fetch_loop fetch].
  by rewrite IH.
Qed.

Lemma fetch_emails_ignores_logout mail lo n unread_only w :
  fetch_emails
    (mkIMAP4 (select mail) (search mail) (fetch mail) (store mail) lo)
    n unread_only w
  = fetch_emails mail n unread_only w.
Proof.
  unfold fetch_emails, bind, lift. cbn [select search].
  destruct (select mail (lit "inbox")); [|done].
  destruct (if unread_only then _ else _) as [[status messages]|]; [|done].
  destruct (negb (bool_decide (status = lit "OK"))); [done|].
  destruct (first_split messages); [|done].
  by rewrite fetch_loop_ignores_logout.
Qed.

(** X18. When [fetch_emails] returns no message (the search was refused,
    matched nothing, or no FETCH was answered OK), the end of [main] logs
    that no emails were found and returns: nothing is summarised or
    emitted, and [mail.logout()] is not called, so its outcome cannot
    matter. *)
Theorem nothing_fetched_means_nothing_done
  (backend : Backend) (decode : str -> bytes -> result str) (host : Host)
  (message_from_bytes : bytes -> message) (method : str)
  (key : option str) (n : Z) (unread_only mark_read : bool)
  (save_file : option str) (mail : IMAP4) (w w1 : World) :
  fetch_emails mail n unread_only w = (Ok [], w1) ->
  main_after_prompts backend decode host message_from_bytes method key n
    unread_only mark_read save_file mail w
  = (Ok tt, emit (EvLog INFO (lit "No emails found.")) w1)
  /\ main_after_prompts backend decode host message_from_bytes method key n
       unread_only mark_read save_file mail w
     = main_after_prompts backend decode host message_from_bytes method key n
         unread_only mark_read save_file
         (mkIMAP4 (select mail) (search mail) (fetch mail) (store mail)
            (Raise (Exception_ (lit "connection lost")))) w.
Proof.
  intros Hfetch.
  assert (Hfetch' :
            fetch_emails
              (mkIMAP4 (select mail) (search mail) (fetch mail) (store mail)
                 (Raise (Exception_ (lit "connection lost"))))
              n unread_only w = (Ok [], w1))
    by (by rewrite fetch_emails_ignores_logout).
  unfold main_after_prompts, bind. by rewrite Hfetch, Hfetch'.
Qed.

Lemma nothing_fetched_means_nothing_done_witness :
  main_after_prompts echo_stub python_decode posix_host parse_as_report
    (lit "transformer") None 5 true true None refusing world0
  = (Ok tt,
     emit (EvLog INFO (lit "No emails found."))
       (emit (EvLog ERROR (lit "Failed to fetch emails.")) world0))
  /\ main_after_prompts echo_stub python_decode posix_host parse_as_report
       (lit "transformer") None 5 true true None refusing world0
     = main_after_prompts echo_stub python_decode posix_host parse_as_report
         (lit "transformer") None 5 true true None
         (mkIMAP4 (select refusing) (search refusing) (fetch refusing)
            (store refusing)
            (Raise (Exception_ (lit "connection lost")))) world0.
Proof.
  exact (nothing_fetched_means_nothing_done echo_stub python_decode
           posix_host parse_as_report (lit "transformer") None 5 true true None
           refusing
           world0 (emit (EvLog ERROR (lit "Failed to fetch emails.")) world0)
           eq_refl).
Defined.

(** X19. With a count [n] of at least one and a search answered OK, every
    mark-as-read command the end of [main] sends is for one of the last
    [n] identifiers of the search answer, for a message whose FETCH was
    answered OK, and is sent only with the flag on. *)
Theorem main_marks_only_within_the_requested_window
  (backend : Backend) (decode : str -> bytes -> result str) (host : Host)
  (message_from_bytes : bytes -> message) (method : str)
  (key : option str) (n : Z) (unread_only mark_read : bool)
  (save_file : option str) (mail : IMAP4) (w : World)
  (blob : bytes) (others : list (option bytes))
  (eid : bytes) (cmd flags : str) :
  (0 < n)%Z ->
  select mail (lit "inbox") = Ok tt ->
  search mail (criterion unread_only) = Ok (lit "OK", Some blob :: others) ->
  In (EvStore eid cmd flags)
    (new_events w
       (snd (main_after_prompts backend decode host message_from_bytes method
               key n unread_only mark_read save_file mail w))) ->
  mark_read = true
  /\ In eid (skipn (length (bytes_split blob) - Z.to_nat n)
               (bytes_split blob))
  /\ fetch_ok mail eid = true.
Proof.
  intros Hn Hsel Hsearch. unfold main_after_prompts, bind at 1.
  rewrite (fetch_emails_after_search mail n unread_only w blob others
             Hsel Hsearch).
  destruct (slice_from_minus_last n (bytes_split blob) Hn) as [Hslice _].
  rewrite <- Hslice.
  destruct (fetch_loop mail (slice_from_minus n (bytes_split blob)))
    as [[|email fetched]|e] eqn:Hloop.
  - unfold logging, tell. cbn [snd].
    rewrite (new_events_app w _ [EvLog INFO (lit "No emails found.")])
      by done.
    intros [H|[]]. discriminate H.
  - unfold bind, lift.
    destruct (main_loop_stores backend decode host mail method key mark_read
                save_file
                (parse_fetched message_from_bytes (email :: fetched)) w)
      as (evs & Ht & Hst).
    destruct (main_loop _ _ _ _ _ _ _ _ _ w) as [[[]|e] w'];
      cbn [snd] in *; rewrite (new_events_app _ _ _ Ht); intros Hin;
      destruct (Hst _ _ _ Hin) as (Hmark & msg & _ & _ & _ & _ & Hmem & _);
      (split; [done|]);
      unfold parse_fetched in Hmem; apply in_map_iff in Hmem;
      destruct Hmem as ([eid' raw] & [= -> _] & Hmem);
      apply (fetch_loop_members mail _ _ Hloop eid raw Hmem).
  - cbn [snd]. rewrite new_events_same. intros [].
Qed.

Lemma main_marks_only_within_the_requested_window_witness :
  true = true
  /\ In (blit "4")
       (skipn (length (bytes_split (blit "1 2  3 4")) - Z.to_nat 2)
          (bytes_split (blit "1 2  3 4")))
  /\ fetch_ok four_messages (blit "4") = true.
Proof.
  refine (main_marks_only_within_the_requested_window echo_stub python_decode
            posix_host parse_as_report (lit "transformer") None 2 true true None
            four_messages world0 (blit "1 2  3 4") [] (blit "4")
            (lit "+FLAGS") (lit "\Seen") eq_refl eq_refl eq_refl _).
  vm_compute. do 3 right. left. reflexivity.
Defined.
